(** * ship: the workflow state machine

    A shallow embedding of the pure transition function of [src/transitions.ts]
    over the state / event / effect model of [src/states.ts], together with
    the parts of the effect executor ([effects.ts]) and of the run loop
    ([index.ts]) that the verified properties mention.

    Conventions.
    - A TypeScript [number] that holds a count or an index ([unpushedCount],
      [behind], [nextIndex], ...) is an integer of [Z]; the comparisons of the
      source ([> 0], [=== 0], [<]) are written with [Z.ltb] and [Z.eqb].
    - A TypeScript [string] is a [string]; a template literal is a
      concatenation.
    - An array is a [list]; reading it at an index that is not a position of
      the array gives [undefined], here [None] (the [!] of the source is a
      compile-time assertion only).
    - An optional field ([prUrl?]) is an [option]. *)

From Stdlib Require Import String Ascii List ZArith Bool Lia.
Import ListNotations.

Local Open Scope string_scope.
Local Open Scope Z_scope.

(** ** Strings of the source that need a quote or a line feed *)

Definition dquote : string := String (Ascii false true false false false true false false) EmptyString.

Definition newline : string := String (Ascii false true false true false false false false) EmptyString.

(** [xs[i]] of JavaScript, for an integer [i]. *)
Definition array_get {A : Type} (xs : list A) (i : Z) : option A :=
  if i <? 0 then None else nth_error xs (Z.to_nat i).

(** [xs.length] as a number. *)
Definition array_length {A : Type} (xs : list A) : Z := Z.of_nat (length xs).

(** ** Data types ([src/states.ts]) *)

Module GitContext.
Record t : Type := mk {
  currentBranch : string;
  onMain : bool;
  hasStaged : bool;
  hasUnstaged : bool;
  hasUntracked : bool;
  hasChanges : bool;
  hasUpstream : bool;
  unpushedCount : Z;
  unmergedCount : Z;
  untrackedRaw : string
}.

(** The object spread [{ ...git, onMain: b }]. *)
Definition with_onMain (git : t) (b : bool) : t :=
  mk (currentBranch git) b (hasStaged git) (hasUnstaged git) (hasUntracked git)
     (hasChanges git) (hasUpstream git) (unpushedCount git) (unmergedCount git)
     (untrackedRaw git).
End GitContext.

Module FileEntry.
Inductive status_t : Type := staged | modified | new.
Record t : Type := mk { path : string; status : status_t }.
End FileEntry.

Module CommitDetails.
Record t : Type := mk {
  branchName : string;
  commitMessage : string;
  prTitle : string;
  prBody : string
}.
End CommitDetails.

Module PrDetails.
Record t : Type := mk { prTitle : string; prBody : string }.
End PrDetails.

Module StackGroup.
Record t : Type := mk { files : list string; commitMessage : string }.
End StackGroup.

Module StackPlan.
Record t : Type := mk {
  groups : list StackGroup.t;
  branchName : string;
  prTitle : string;
  prBody : string
}.
End StackPlan.

Inductive PostPush : Type := pp_check_pr | pp_done.

Inductive CommitAction : Type := act_accept | act_edit | act_cancel.

Inductive PostCommitChoice : Type :=
  choice_create_pr | choice_push_only | choice_commit_more | choice_done.

(** ** States *)

Module State.
Inductive t : Type :=
| preflight
| fast_path_logging (git : GitContext.t)
| fast_path_pushing (git : GitContext.t) (commitLog : string)
| fast_path_checking_pr (git : GitContext.t)
| fast_path_generating_pr (git : GitContext.t) (diff : string)
| fast_path_confirming_pr (git : GitContext.t) (prDetails : PrDetails.t)
| fast_path_creating_pr (git : GitContext.t) (prDetails : PrDetails.t)
| fast_path_confirming_merge (git : GitContext.t) (prUrl : string)
| fast_path_merging (git : GitContext.t) (prUrl : string)
| collecting_files (git : GitContext.t)
| picking_files (git : GitContext.t) (files : list FileEntry.t)
| staging_files (git : GitContext.t) (selectedFiles : list string)
| getting_diff (git : GitContext.t)
| generating_details (git : GitContext.t) (diff : string)
| confirming_branch (git : GitContext.t) (details : CommitDetails.t)
| confirming_commit (git : GitContext.t) (details : CommitDetails.t) (branchName : string)
| editing_commit (git : GitContext.t) (details : CommitDetails.t) (branchName : string)
| committing (git : GitContext.t) (details : CommitDetails.t) (branchName : string)
    (commitMessage : string)
| post_commit_checking_pr (git : GitContext.t) (details : CommitDetails.t)
    (branchName : string)
| post_commit (git : GitContext.t) (details : CommitDetails.t) (branchName : string)
    (prUrl : option string)
| pushing (git : GitContext.t) (branchName : string) (details : CommitDetails.t)
    (postPush : PostPush)
| checking_pr (git : GitContext.t) (details : CommitDetails.t) (branchName : string)
| confirming_pr (git : GitContext.t) (details : CommitDetails.t) (branchName : string)
| stack_committing (git : GitContext.t) (plan : StackPlan.t) (currentIndex : Z)
| creating_pr (git : GitContext.t) (details : CommitDetails.t) (branchName : string)
| confirming_merge (git : GitContext.t) (branchName : string) (prUrl : string)
| merging (git : GitContext.t) (branchName : string) (prUrl : string)
| checking_remote (git : GitContext.t)
| confirming_pull (git : GitContext.t) (behind : Z)
| pulling (git : GitContext.t)
| done (message : string)
| cancelled (message : string)
| error (message : string)
| nothing_to_ship
| merge_conflict (git : GitContext.t) (message : string).

(** The [kind] tag of a state. *)
Definition kind (s : t) : string :=
  match s with
  | preflight => "preflight"
  | fast_path_logging _ => "fast_path_logging"
  | fast_path_pushing _ _ => "fast_path_pushing"
  | fast_path_checking_pr _ => "fast_path_checking_pr"
  | fast_path_generating_pr _ _ => "fast_path_generating_pr"
  | fast_path_confirming_pr _ _ => "fast_path_confirming_pr"
  | fast_path_creating_pr _ _ => "fast_path_creating_pr"
  | fast_path_confirming_merge _ _ => "fast_path_confirming_merge"
  | fast_path_merging _ _ => "fast_path_merging"
  | collecting_files _ => "collecting_files"
  | picking_files _ _ => "picking_files"
  | staging_files _ _ => "staging_files"
  | getting_diff _ => "getting_diff"
  | generating_details _ _ => "generating_details"
  | confirming_branch _ _ => "confirming_branch"
  | confirming_commit _ _ _ => "confirming_commit"
  | editing_commit _ _ _ => "editing_commit"
  | committing _ _ _ _ => "committing"
  | post_commit_checking_pr _ _ _ => "post_commit_checking_pr"
  | post_commit _ _ _ _ => "post_commit"
  | pushing _ _ _ _ => "pushing"
  | checking_pr _ _ _ => "checking_pr"
  | confirming_pr _ _ _ => "confirming_pr"
  | stack_committing _ _ _ => "stack_committing"
  | creating_pr _ _ _ => "creating_pr"
  | confirming_merge _ _ _ => "confirming_merge"
  | merging _ _ _ => "merging"
  | checking_remote _ => "checking_remote"
  | confirming_pull _ _ => "confirming_pull"
  | pulling _ => "pulling"
  | done _ => "done"
  | cancelled _ => "cancelled"
  | error _ => "error"
  | nothing_to_ship => "nothing_to_ship"
  | merge_conflict _ _ => "merge_conflict"
  end.
End State.

(** [isTerminal] of [src/states.ts]. *)
Definition isTerminal (s : State.t) : bool :=
  match s with
  | State.done _ | State.cancelled _ | State.error _
  | State.nothing_to_ship | State.merge_conflict _ _ => true
  | _ => false
  end.

(** ** Events *)

Module Event.
Inductive t : Type :=
| tools_ok (git : GitContext.t)
| commit_log_ready (commitLog : string)
| push_done
| pr_exists (prUrl : string)
| no_pr
| diff_ready (diff : string)
| pr_details_generated (prDetails : PrDetails.t)
| pr_details_failed
| confirm_pr (accepted : bool)
| pr_created (prUrl : string)
| confirm_merge (accepted : bool)
| merge_done (prUrl : string)
| files_collected (files : list FileEntry.t)
| files_picked (selectedFiles : list string)
| files_staged (shortStat : string)
| details_generated (details : CommitDetails.t)
| details_failed
| branch_confirmed (branchName : string)
| commit_action (action : CommitAction)
| commit_edited (commitMessage : string)
| commit_done
| pr_skip
| merge_skip (prUrl : string) (branchName : string)
| user_cancelled
| remote_status (behind : Z)
| confirm_pull (accepted : bool)
| pull_done
| pull_conflict (message : string)
| post_commit_choice (choice : PostCommitChoice)
| stack_plan_generated (plan : StackPlan.t)
| stack_commit_done (nextIndex : Z).

(** The [kind] tag of an event. *)
Definition kind (e : t) : string :=
  match e with
  | tools_ok _ => "tools_ok"
  | commit_log_ready _ => "commit_log_ready"
  | push_done => "push_done"
  | pr_exists _ => "pr_exists"
  | no_pr => "no_pr"
  | diff_ready _ => "diff_ready"
  | pr_details_generated _ => "pr_details_generated"
  | pr_details_failed => "pr_details_failed"
  | confirm_pr _ => "confirm_pr"
  | pr_created _ => "pr_created"
  | confirm_merge _ => "confirm_merge"
  | merge_done _ => "merge_done"
  | files_collected _ => "files_collected"
  | files_picked _ => "files_picked"
  | files_staged _ => "files_staged"
  | details_generated _ => "details_generated"
  | details_failed => "details_failed"
  | branch_confirmed _ => "branch_confirmed"
  | commit_action _ => "commit_action"
  | commit_edited _ => "commit_edited"
  | commit_done => "commit_done"
  | pr_skip => "pr_skip"
  | merge_skip _ _ => "merge_skip"
  | user_cancelled => "user_cancelled"
  | remote_status _ => "remote_status"
  | confirm_pull _ => "confirm_pull"
  | pull_done => "pull_done"
  | pull_conflict _ => "pull_conflict"
  | post_commit_choice _ => "post_commit_choice"
  | stack_plan_generated _ => "stack_plan_generated"
  | stack_commit_done _ => "stack_commit_done"
  end.
End Event.

(** ** Effects *)

Module Effect.
Inductive t : Type :=
| check_tools
| log_info (message : string)
| show_note (content : string) (title : string)
| show_commit_log (git : GitContext.t)
| push_branch (branch : string)
| check_existing_pr (branch : string)
| get_diff_main
| generate_pr_details (diff : string)
| prompt_confirm_pr (prDetails : PrDetails.t)
| create_pr (branch : string) (prDetails : PrDetails.t)
| log_pr_found (prUrl : string)
| log_pr_created (prUrl : string)
| prompt_confirm_merge (prUrl : string)
| merge_and_cleanup (prUrl : string) (onMain : bool)
| collect_files (git : GitContext.t)
| prompt_file_picker (files : list FileEntry.t)
| stage_files (selectedFiles : list string)
| get_staged_diff
| generate_commit_details (diff : string)
| prompt_branch_name (suggestion : string)
| show_commit_message (commitMessage : string)
| prompt_commit_action
| open_editor (commitMessage : string)
| commit_only (branchName : string) (commitMessage : string) (onMain : bool)
| log_pr_exists (prUrl : string)
| show_pr_details (details : CommitDetails.t)
| prompt_create_pr (details : CommitDetails.t)
| create_full_pr (branch : string) (details : CommitDetails.t)
| log_merge_skip (prUrl : string) (branchName : string) (onMain : bool)
| log_pr_skip (branchName : string)
| unstage_all
| check_remote_status (branch : string)
| prompt_confirm_pull (behind : Z)
| pull_remote (branch : string)
| prompt_post_commit (prUrl : option string)
| execute_stack_commit (group : option StackGroup.t) (branchName : string)
    (isFirst : bool) (onMain : bool) (index : Z).
End Effect.

(** ** The transition function ([src/transitions.ts]) *)

Record Transition : Type := mkTransition {
  state : State.t;
  effects : list Effect.t
}.

Definition continueAfterPullCheck (git : GitContext.t) : Transition :=
  if negb (GitContext.hasChanges git)
     && (GitContext.unpushedCount git =? 0)
     && (GitContext.unmergedCount git =? 0)
  then mkTransition State.nothing_to_ship []
  else if negb (GitContext.hasChanges git)
          && ((0 <? GitContext.unpushedCount git) || (0 <? GitContext.unmergedCount git))
  then mkTransition (State.fast_path_logging git) [Effect.show_commit_log git]
  else mkTransition (State.collecting_files git) [Effect.collect_files git].

Definition startStackCommitting (git : GitContext.t) (plan : StackPlan.t) : Transition :=
  mkTransition
    (State.stack_committing git plan 0)
    [Effect.execute_stack_commit
       (array_get (StackPlan.groups plan) 0)
       (StackPlan.branchName plan)
       true
       (GitContext.onMain git)
       0].

Definition invalid (state : State.t) (event : Event.t) : Transition :=
  mkTransition
    (State.error
       ("Unexpected event " ++ dquote ++ Event.kind event ++ dquote
        ++ " in state " ++ dquote ++ State.kind state ++ dquote))
    [].

Definition transition (state : State.t) (event : Event.t) : Transition :=
  match state with
  (* Preflight *)
  | State.preflight =>
      match event with
      | Event.tools_ok git =>
          if negb (GitContext.hasChanges git)
             && (GitContext.unpushedCount git =? 0)
             && (GitContext.unmergedCount git =? 0)
          then mkTransition State.nothing_to_ship []
          else if negb (GitContext.onMain git) && GitContext.hasUpstream git
          then mkTransition (State.checking_remote git)
                 [Effect.check_remote_status (GitContext.currentBranch git)]
          else continueAfterPullCheck git
      | _ => invalid state event
      end

  (* Pull check *)
  | State.checking_remote git =>
      match event with
      | Event.remote_status behind =>
          if 0 <? behind
          then mkTransition (State.confirming_pull git behind)
                 [Effect.prompt_confirm_pull behind]
          else continueAfterPullCheck git
      | _ => invalid state event
      end

  | State.confirming_pull git _ =>
      match event with
      | Event.confirm_pull accepted =>
          if accepted
          then mkTransition (State.pulling git)
                 [Effect.pull_remote (GitContext.currentBranch git)]
          else continueAfterPullCheck git
      | _ => invalid state event
      end

  | State.pulling git =>
      match event with
      | Event.pull_done => mkTransition State.preflight [Effect.check_tools]
      | Event.pull_conflict message => mkTransition (State.merge_conflict git message) []
      | _ => invalid state event
      end

  (* Fast path *)
  | State.fast_path_logging git =>
      match event with
      | Event.commit_log_ready commitLog =>
          if 0 <? GitContext.unpushedCount git
          then mkTransition (State.fast_path_pushing git commitLog)
                 [Effect.push_branch (GitContext.currentBranch git)]
          else mkTransition (State.fast_path_checking_pr git)
                 [Effect.check_existing_pr (GitContext.currentBranch git)]
      | _ => invalid state event
      end

  | State.fast_path_pushing git _ =>
      match event with
      | Event.push_done =>
          mkTransition (State.fast_path_checking_pr git)
            [Effect.check_existing_pr (GitContext.currentBranch git)]
      | _ => invalid state event
      end

  | State.fast_path_checking_pr git =>
      match event with
      | Event.pr_exists prUrl =>
          mkTransition (State.fast_path_confirming_merge git prUrl)
            [Effect.log_pr_found prUrl; Effect.prompt_confirm_merge prUrl]
      | Event.no_pr =>
          mkTransition (State.fast_path_generating_pr git EmptyString)
            [Effect.get_diff_main]
      | _ => invalid state event
      end

  | State.fast_path_generating_pr git _ =>
      match event with
      | Event.diff_ready diff =>
          mkTransition (State.fast_path_generating_pr git diff)
            [Effect.generate_pr_details diff]
      | Event.pr_details_generated prDetails =>
          mkTransition (State.fast_path_confirming_pr git prDetails)
            [Effect.prompt_confirm_pr prDetails]
      | Event.pr_details_failed | Event.user_cancelled =>
          mkTransition (State.done "Branch pushed. Create PR manually.") []
      | _ => invalid state event
      end

  | State.fast_path_confirming_pr git prDetails =>
      match event with
      | Event.confirm_pr accepted =>
          if negb accepted
          then mkTransition (State.done "Branch pushed.")
                 [Effect.log_pr_skip (GitContext.currentBranch git)]
          else mkTransition (State.fast_path_creating_pr git prDetails)
                 [Effect.create_pr (GitContext.currentBranch git) prDetails]
      | _ => invalid state event
      end

  | State.fast_path_creating_pr git _ =>
      match event with
      | Event.pr_created prUrl =>
          mkTransition (State.fast_path_confirming_merge git prUrl)
            [Effect.log_pr_created prUrl; Effect.prompt_confirm_merge prUrl]
      | _ => invalid state event
      end

  | State.fast_path_confirming_merge git prUrl =>
      match event with
      | Event.confirm_merge accepted =>
          if negb accepted
          then mkTransition (State.done ("PR open: " ++ prUrl))
                 [Effect.log_merge_skip prUrl (GitContext.currentBranch git)
                    (GitContext.onMain git)]
          else mkTransition (State.fast_path_merging git prUrl)
                 [Effect.merge_and_cleanup prUrl (GitContext.onMain git)]
      | _ => invalid state event
      end

  | State.fast_path_merging _ _ =>
      match event with
      | Event.merge_done prUrl => mkTransition (State.done ("Shipped! " ++ prUrl)) []
      | _ => invalid state event
      end

  (* Full path *)
  | State.collecting_files git =>
      match event with
      | Event.files_collected files =>
          mkTransition (State.picking_files git files) [Effect.prompt_file_picker files]
      | _ => invalid state event
      end

  | State.picking_files git _ =>
      match event with
      | Event.user_cancelled => mkTransition (State.cancelled "Cancelled.") []
      | Event.stack_plan_generated plan => startStackCommitting git plan
      | Event.files_picked selectedFiles =>
          mkTransition (State.staging_files git selectedFiles)
            [Effect.stage_files selectedFiles]
      | _ => invalid state event
      end

  | State.staging_files git _ =>
      match event with
      | Event.files_staged shortStat =>
          mkTransition (State.getting_diff git)
            [Effect.log_info shortStat; Effect.get_staged_diff]
      | _ => invalid state event
      end

  | State.getting_diff git =>
      match event with
      | Event.diff_ready diff =>
          mkTransition (State.generating_details git diff)
            [Effect.generate_commit_details diff]
      | _ => invalid state event
      end

  | State.generating_details git _ =>
      match event with
      | Event.details_generated details =>
          if GitContext.onMain git
          then mkTransition (State.confirming_branch git details)
                 [Effect.prompt_branch_name (CommitDetails.branchName details)]
          else mkTransition
                 (State.confirming_commit git details (GitContext.currentBranch git))
                 [Effect.show_commit_message (CommitDetails.commitMessage details);
                  Effect.prompt_commit_action]
      | Event.details_failed | Event.user_cancelled =>
          mkTransition (State.cancelled "Aborted.") [Effect.unstage_all]
      | _ => invalid state event
      end

  | State.confirming_branch git details =>
      match event with
      | Event.user_cancelled =>
          mkTransition (State.cancelled "Cancelled.") [Effect.unstage_all]
      | Event.branch_confirmed branchName =>
          mkTransition (State.confirming_commit git details branchName)
            [Effect.show_commit_message (CommitDetails.commitMessage details);
             Effect.prompt_commit_action]
      | _ => invalid state event
      end

  | State.confirming_commit git details branchName =>
      match event with
      | Event.commit_action act_cancel =>
          mkTransition (State.cancelled "Aborted.") [Effect.unstage_all]
      | Event.commit_action act_edit =>
          mkTransition (State.editing_commit git details branchName)
            [Effect.open_editor (CommitDetails.commitMessage details)]
      | Event.commit_action act_accept =>
          mkTransition
            (State.committing git details branchName (CommitDetails.commitMessage details))
            [Effect.commit_only branchName (CommitDetails.commitMessage details)
               (GitContext.onMain git)]
      | _ => invalid state event
      end

  | State.editing_commit git details branchName =>
      match event with
      | Event.commit_edited commitMessage =>
          mkTransition (State.committing git details branchName commitMessage)
            [Effect.commit_only branchName commitMessage (GitContext.onMain git)]
      | _ => invalid state event
      end

  | State.committing git details branchName _ =>
      match event with
      | Event.commit_done =>
          mkTransition
            (State.post_commit_checking_pr (GitContext.with_onMain git false)
               details branchName)
            [Effect.check_existing_pr branchName]
      | _ => invalid state event
      end

  | State.post_commit_checking_pr git details branchName =>
      match event with
      | Event.pr_exists prUrl =>
          mkTransition (State.post_commit git details branchName (Some prUrl))
            [Effect.prompt_post_commit (Some prUrl)]
      | Event.no_pr =>
          mkTransition (State.post_commit git details branchName None)
            [Effect.prompt_post_commit None]
      | _ => invalid state event
      end

  (* Post-commit hub *)
  | State.post_commit git details branchName _ =>
      match event with
      | Event.post_commit_choice choice_create_pr =>
          mkTransition (State.pushing git branchName details pp_check_pr)
            [Effect.push_branch branchName]
      | Event.post_commit_choice choice_push_only =>
          mkTransition (State.pushing git branchName details pp_done)
            [Effect.push_branch branchName]
      | Event.post_commit_choice choice_commit_more =>
          mkTransition (State.collecting_files git) [Effect.collect_files git]
      | Event.post_commit_choice choice_done =>
          mkTransition (State.done "Committed locally.") []
      | _ => invalid state event
      end

  (* Pushing *)
  | State.pushing git branchName details postPush =>
      match event with
      | Event.push_done =>
          match postPush with
          | pp_check_pr =>
              mkTransition (State.checking_pr git details branchName)
                [Effect.check_existing_pr branchName]
          | pp_done => mkTransition (State.done "Pushed.") []
          end
      | _ => invalid state event
      end

  | State.checking_pr git details branchName =>
      match event with
      | Event.pr_exists prUrl =>
          mkTransition (State.confirming_merge git branchName prUrl)
            [Effect.log_pr_exists prUrl; Effect.prompt_confirm_merge prUrl]
      | Event.no_pr =>
          mkTransition (State.confirming_pr git details branchName)
            [Effect.show_pr_details details; Effect.prompt_create_pr details]
      | _ => invalid state event
      end

  | State.confirming_pr git details branchName =>
      match event with
      | Event.user_cancelled => mkTransition (State.cancelled "Cancelled.") []
      | Event.confirm_pr accepted =>
          if negb accepted
          then mkTransition (State.done "Done.") [Effect.log_pr_skip branchName]
          else mkTransition (State.creating_pr git details branchName)
                 [Effect.create_full_pr branchName details]
      | _ => invalid state event
      end

  | State.creating_pr git _ branchName =>
      match event with
      | Event.pr_created prUrl =>
          mkTransition (State.confirming_merge git branchName prUrl)
            [Effect.log_pr_created prUrl; Effect.prompt_confirm_merge prUrl]
      | _ => invalid state event
      end

  | State.confirming_merge git branchName prUrl =>
      match event with
      | Event.user_cancelled => mkTransition (State.cancelled "Cancelled.") []
      | Event.confirm_merge accepted =>
          if negb accepted
          then mkTransition (State.done ("PR open: " ++ prUrl))
                 [Effect.log_merge_skip prUrl branchName (GitContext.onMain git)]
          else mkTransition (State.merging git branchName prUrl)
                 [Effect.merge_and_cleanup prUrl (GitContext.onMain git)]
      | _ => invalid state event
      end

  | State.merging _ _ _ =>
      match event with
      | Event.merge_done prUrl => mkTransition (State.done ("Shipped! " ++ prUrl)) []
      | _ => invalid state event
      end

  (* Stack committing *)
  | State.stack_committing git plan _ =>
      match event with
      | Event.stack_commit_done nextIndex =>
          if nextIndex <? array_length (StackPlan.groups plan)
          then mkTransition (State.stack_committing git plan nextIndex)
                 [Effect.execute_stack_commit
                    (array_get (StackPlan.groups plan) nextIndex)
                    (StackPlan.branchName plan)
                    false
                    false
                    nextIndex]
          else
            let actualBranch :=
              if GitContext.onMain git
              then StackPlan.branchName plan
              else GitContext.currentBranch git in
            let details :=
              CommitDetails.mk
                actualBranch
                (String.concat newline
                   (map StackGroup.commitMessage (StackPlan.groups plan)))
                (StackPlan.prTitle plan)
                (StackPlan.prBody plan) in
            mkTransition
              (State.post_commit_checking_pr (GitContext.with_onMain git false)
                 details actualBranch)
              [Effect.check_existing_pr actualBranch]
      | _ => invalid state event
      end

  (* Terminal states should never receive events *)
  | State.done _
  | State.cancelled _
  | State.error _
  | State.nothing_to_ship
  | State.merge_conflict _ _ => invalid state event
  end.

(** ** The effect executor ([effects.ts]): the two effects whose reply is
    decided by the code alone *)

(** What the commands run by [check_tools] report: the exit status of
    [which gh], the output of [git branch --show-current], and so on.  The
    counts are the outputs of [git rev-list --count] after [parseInt]. *)
Module World.
Record t : Type := mk {
  which_gh : bool;
  branch_show_current : string;
  diff_cached_quiet : bool;
  diff_quiet : bool;
  ls_files_others : string;
  verify_origin_branch : bool;
  count_origin_branch_to_head : Z;
  count_origin_main_to_head : Z
}.
End World.

Definition nonempty_string (s : string) : bool :=
  match s with
  | EmptyString => false
  | String _ _ => true
  end.

(** [EffectExecutor.execute] at [check_tools]. *)
Definition execute_check_tools (w : World.t) : Event.t :=
  if negb (World.which_gh w) then Event.user_cancelled
  else
    let currentBranch := World.branch_show_current w in
    let onMain := String.eqb currentBranch "main" in
    let hasStaged := negb (World.diff_cached_quiet w) in
    let hasUnstaged := negb (World.diff_quiet w) in
    let untrackedRaw := World.ls_files_others w in
    let hasUntracked := nonempty_string untrackedRaw in
    let hasChanges := hasStaged || hasUnstaged || hasUntracked in
    let hasUpstream := negb onMain && World.verify_origin_branch w in
    let unpushedCount :=
      if negb onMain && hasUpstream then World.count_origin_branch_to_head w
      else if negb onMain && negb hasUpstream then World.count_origin_main_to_head w
      else 0 in
    let unmergedCount :=
      if negb onMain then World.count_origin_main_to_head w else 0 in
    Event.tools_ok
      (GitContext.mk currentBranch onMain hasStaged hasUnstaged hasUntracked
         hasChanges hasUpstream unpushedCount unmergedCount untrackedRaw).

(** [EffectExecutor.execute] at [execute_stack_commit], when none of its
    commands fails: the event it returns. *)
Definition execute_stack_commit_reply (effect : Effect.t) : option Event.t :=
  match effect with
  | Effect.execute_stack_commit _ _ _ _ index =>
      Some (Event.stack_commit_done (index + 1))
  | _ => None
  end.

(** ** The run loop ([index.ts]) *)

(** The transitions of the loop
    [while (!isTerminal(state)) { ...; next = transition(state, event); ... }]
    when the executor delivers the events of [events], in that order. *)
Fixpoint run (s : State.t) (events : list Event.t) : list Transition :=
  match events with
  | [] => []
  | e :: rest =>
      if isTerminal s then []
      else
        let next := transition s e in
        next :: run (state next) rest
  end.

Definition is_stage_files (effect : Effect.t) : bool :=
  match effect with
  | Effect.stage_files _ => true
  | _ => false
  end.

(** One turn of the loop, with what is known of the working tree before it:
    [staged_before] holds when a [stage_files] effect has been emitted and no
    commit has been made since. *)
Record Step : Type := mkStep {
  before : State.t;
  received : Event.t;
  staged_before : bool;
  result : Transition
}.

(** The commit of the full path is made by the [commit_only] effect that
    accompanies the entry into [committing]; [commit_done] reports it. *)
Definition commit_reported (s : State.t) (e : Event.t) : bool :=
  match s, e with
  | State.committing _ _ _ _, Event.commit_done => true
  | _, _ => false
  end.

Definition staged_after (staged : bool) (s : State.t) (e : Event.t) (t : Transition) : bool :=
  if existsb is_stage_files (effects t) then true
  else if commit_reported s e then false
  else staged.

Fixpoint steps (staged : bool) (s : State.t) (events : list Event.t) : list Step :=
  match events with
  | [] => []
  | e :: rest =>
      if isTerminal s then []
      else
        let next := transition s e in
        mkStep s e staged next
          :: steps (staged_after staged s e next) (state next) rest
  end.


(** The states at which the user is asked to confirm or to give input, as the
    cancellation policy lists them. *)
Definition confirmation_point (s : State.t) : bool :=
  match s with
  | State.fast_path_generating_pr _ _
  | State.fast_path_confirming_pr _ _
  | State.fast_path_confirming_merge _ _
  | State.picking_files _ _
  | State.confirming_branch _ _
  | State.confirming_commit _ _ _
  | State.confirming_pr _ _ _
  | State.confirming_merge _ _ _ => true
  | _ => false
  end.

(** The events that drive a stack of [n] commits: the reply to the commit at
    index [i] carries [i + 1]. *)
Definition stack_events (n : nat) : list Event.t :=
  map (fun i => Event.stack_commit_done (Z.of_nat i)) (seq 1 n).

(** The commit effects of the groups [gs], the first of them at index [i]. *)
Fixpoint stack_commit_effects (plan : StackPlan.t) (onMain : bool) (i : nat)
    (gs : list StackGroup.t) : list Effect.t :=
  match gs with
  | [] => []
  | g :: rest =>
      Effect.execute_stack_commit (Some g) (StackPlan.branchName plan)
        (Nat.eqb i 0) (if Nat.eqb i 0 then onMain else false) (Z.of_nat i)
        :: stack_commit_effects plan onMain (S i) rest
  end.

(** ** Sample values *)

Definition feature_git : GitContext.t :=
  GitContext.mk "feat-thing" false false true false true false 0 0 EmptyString.

Definition main_git : GitContext.t :=
  GitContext.mk "main" true false true false true false 0 0 EmptyString.

Definition clean_git : GitContext.t :=
  GitContext.mk "feat-x" false true true true false true 0 0 "junk".

Definition sample_details : CommitDetails.t :=
  CommitDetails.mk "feat-foo" "feat: add foo" "feat: add foo" "Added foo".

Definition sample_plan : StackPlan.t :=
  StackPlan.mk
    [StackGroup.mk ["a.ts"] "feat: a"; StackGroup.mk ["b.ts"; "c.ts"] "fix: b"]
    "feat-stack" "stack title" "stack body".

Definition no_gh : World.t :=
  World.mk false "main" true true EmptyString false 0 0.

(** The answer of [stack_committing] once every group is committed. *)
Definition stack_completion (git : GitContext.t) (plan : StackPlan.t) : Transition :=
  let actualBranch :=
    if GitContext.onMain git then StackPlan.branchName plan
    else GitContext.currentBranch git in
  mkTransition
    (State.post_commit_checking_pr (GitContext.with_onMain git false)
       (CommitDetails.mk actualBranch
          (String.concat newline
             (map StackGroup.commitMessage (StackPlan.groups plan)))
          (StackPlan.prTitle plan) (StackPlan.prBody plan))
       actualBranch)
    [Effect.check_existing_pr actualBranch].



(** * Further parts of the program *)

(** ** The command line ([index.ts], [parseArgs]) *)

Inductive Goal : Type := goal_local | goal_push | goal_pr.

(** [CliMode], with the [setup] mode that [parseArgs] returns as well. *)
Inductive CliMode : Type :=
| mode_interactive
| mode_auto (goal : Goal) (stack : bool)
| mode_setup.

(** What [parseArgs] does: it returns a mode, or logs a message and leaves
    the process with status 1. *)
Inductive ParseResult : Type :=
| parsed (mode : CliMode)
| exit_1 (message : string).

(** [args.includes(flag)]. *)
Definition includes (args : list string) (flag : string) : bool :=
  existsb (String.eqb flag) args.

(** [a.startsWith("--")]. *)
Definition startsWith_dashes (a : string) : bool :=
  match a with
  | String c1 (String c2 _) => Ascii.eqb c1 "-" && Ascii.eqb c2 "-"
  | _ => false
  end.

(** [[hasLocal, hasPush, hasPr].filter(Boolean).length]. *)
Definition goalCount (hasLocal hasPush hasPr : bool) : nat :=
  length (filter (fun b : bool => b) [hasLocal; hasPush; hasPr]).

(** [positional[0] === word]. *)
Definition first_is (positional : list string) (word : string) : bool :=
  match hd_error positional with
  | Some a => String.eqb a word
  | None => false
  end.

Definition parseArgs (argv : list string) : ParseResult :=
  let args := skipn 2 argv in
  let hasLocal := includes args "--local" in
  let hasPush := includes args "--push" in
  let hasPr := includes args "--pr" in
  let hasStack := includes args "--stack" in
  if (1 <? goalCount hasLocal hasPush hasPr)%nat
  then exit_1 "--local, --push, and --pr are mutually exclusive."
  else if hasStack && negb hasPush && negb hasPr
  then exit_1 "--stack requires --push or --pr."
  else
    let positional := filter (fun a => negb (startsWith_dashes a)) args in
    if first_is positional "setup" then parsed mode_setup
    else if hasLocal then parsed (mode_auto goal_local false)
    else if hasPush then parsed (mode_auto goal_push hasStack)
    else if hasPr then parsed (mode_auto goal_pr hasStack)
    else parsed mode_interactive.

(** The flag that selects a goal. *)
Definition goal_flag (goal : Goal) : string :=
  match goal with
  | goal_local => "--local"
  | goal_push => "--push"
  | goal_pr => "--pr"
  end.

(** ** The effect executor, continued ([effects.ts]) *)

(** [this.isAuto] and [this.isStack]. *)
Definition isAuto (mode : CliMode) : bool :=
  match mode with
  | mode_auto _ _ => true
  | _ => false
  end.

Definition isStack (mode : CliMode) : bool :=
  match mode with
  | mode_auto _ stack => stack
  | _ => false
  end.

(** [s.split("\n")]: the pieces of [s] between line feeds (one piece, the
    empty one, for the empty string). *)
Fixpoint split_lines (s : string) : list string :=
  match s with
  | EmptyString => [EmptyString]
  | String c rest =>
      if Ascii.eqb c (Ascii false true false true false false false false)
      then EmptyString :: split_lines rest
      else
        match split_lines rest with
        | [] => [String c EmptyString]
        | piece :: pieces => String c piece :: pieces
        end
  end.

(** [s.split("\n").filter(Boolean)]. *)
Definition nonempty_lines (s : string) : list string :=
  filter nonempty_string (split_lines s).

(** [seen.has(f)], the set [seen] kept as the list of its elements. *)
Definition seen_has (seen : list string) (f : string) : bool :=
  existsb (String.eqb f) seen.

(** One of the three loops of [collect_files]:
    [for (const f of paths) if (!seen.has(f)) { files.push(...); seen.add(f) }]. *)
Fixpoint add_files (status : FileEntry.status_t) (paths : list string)
    (files : list FileEntry.t) (seen : list string)
    : list FileEntry.t * list string :=
  match paths with
  | [] => (files, seen)
  | f :: rest =>
      if seen_has seen f then add_files status rest files seen
      else add_files status rest (files ++ [FileEntry.mk f status])%list (f :: seen)
  end.

(** [EffectExecutor.execute] at [collect_files]: the entries of the event it
    returns, from the context and from the outputs of
    [git diff --cached --name-only] and [git diff --name-only]. *)
Definition collect_files (git : GitContext.t) (cached_names diff_names : string)
    : list FileEntry.t :=
  let acc0 : list FileEntry.t * list string := ([], []) in
  let acc1 :=
    if GitContext.hasStaged git
    then add_files FileEntry.staged (nonempty_lines cached_names) (fst acc0) (snd acc0)
    else acc0 in
  let acc2 :=
    if GitContext.hasUnstaged git
    then add_files FileEntry.modified (nonempty_lines diff_names) (fst acc1) (snd acc1)
    else acc1 in
  let acc3 :=
    if GitContext.hasUntracked git
    then add_files FileEntry.new (nonempty_lines (GitContext.untrackedRaw git))
           (fst acc2) (snd acc2)
    else acc2 in
  fst acc3.

(** The branch name typed at [prompt_branch_name], as the executor cleans it:
    [(input || suggestion).toLowerCase().replace(/\s+/g, "-")
       .replace(/[^a-z0-9._/-]/g, "")].
    Strings are taken as ASCII text here: on other characters
    [toLowerCase] and [\s] follow Unicode tables that are not modelled. *)
Definition is_ascii (c : ascii) : bool := (nat_of_ascii c <? 128)%nat.

Fixpoint is_ascii_string (s : string) : bool :=
  match s with
  | EmptyString => true
  | String c rest => is_ascii c && is_ascii_string rest
  end.

(** [p] holds of every character of [s]. *)
Fixpoint all_chars (p : ascii -> bool) (s : string) : bool :=
  match s with
  | EmptyString => true
  | String c rest => p c && all_chars p rest
  end.

Definition lower_ascii (c : ascii) : ascii :=
  let n := nat_of_ascii c in
  if ((65 <=? n) && (n <=? 90))%nat then ascii_of_nat (n + 32) else c.

Fixpoint toLowerCase (s : string) : string :=
  match s with
  | EmptyString => EmptyString
  | String c rest => String (lower_ascii c) (toLowerCase rest)
  end.

(** The ASCII characters of [\s]: tab, line feed, vertical tab, form feed,
    carriage return, space. *)
Definition is_space (c : ascii) : bool :=
  let n := nat_of_ascii c in
  ((9 <=? n) && (n <=? 13) || (n =? 32))%nat.

(** [.replace(/\s+/g, "-")]; [in_run] holds inside a run of white space whose
    dash is already written. *)
Fixpoint dash_spaces (in_run : bool) (s : string) : string :=
  match s with
  | EmptyString => EmptyString
  | String c rest =>
      if is_space c
      then if in_run then dash_spaces true rest
           else String "-" (dash_spaces true rest)
      else String c (dash_spaces false rest)
  end.

(** The class [[a-z0-9._/-]]. *)
Definition branch_char (c : ascii) : bool :=
  let n := nat_of_ascii c in
  ((97 <=? n) && (n <=? 122) || (48 <=? n) && (n <=? 57)
   || (n =? 46) || (n =? 95) || (n =? 47) || (n =? 45))%nat.

(** [.replace(/[^a-z0-9._/-]/g, "")]. *)
Fixpoint keep_branch_chars (s : string) : string :=
  match s with
  | EmptyString => EmptyString
  | String c rest =>
      if branch_char c then String c (keep_branch_chars rest)
      else keep_branch_chars rest
  end.

Definition clean_branch_name (input suggestion : string) : string :=
  let chosen := if nonempty_string input then input else suggestion in
  keep_branch_chars (dash_spaces false (toLowerCase chosen)).

(** The values that [EffectExecutor.execute] can return for an effect in a
    mode, one disjunct for each [return] of its case ([None] is [null]).
    Texts that come from commands, from the generation provider or from the
    user are left free. *)
Definition may_return (mode : CliMode) (effect : Effect.t) (r : option Event.t) : Prop :=
  match effect with
  | Effect.check_tools => exists w, r = Some (execute_check_tools w)
  | Effect.log_info _ => r = None
  | Effect.show_note _ _ => r = None
  | Effect.show_commit_log _ => exists commitLog, r = Some (Event.commit_log_ready commitLog)
  | Effect.push_branch branch =>
      ((branch = "main" \/ branch = "master") /\ r = Some Event.user_cancelled)
      \/ r = Some Event.push_done
  | Effect.check_existing_pr _ =>
      (exists prUrl, r = Some (Event.pr_exists prUrl)) \/ r = Some Event.no_pr
  | Effect.get_diff_main => exists diff, r = Some (Event.diff_ready diff)
  | Effect.generate_pr_details _ =>
      (exists prDetails, r = Some (Event.pr_details_generated prDetails))
      \/ r = Some Event.pr_details_failed
  | Effect.prompt_confirm_pr _ =>
      if isAuto mode then r = Some (Event.confirm_pr true)
      else r = Some Event.user_cancelled
           \/ exists accepted, r = Some (Event.confirm_pr accepted)
  | Effect.create_pr _ _ => exists prUrl, r = Some (Event.pr_created prUrl)
  | Effect.log_pr_found _ => r = None
  | Effect.log_pr_created _ => r = None
  | Effect.prompt_confirm_merge _ =>
      if isAuto mode then r = Some (Event.confirm_merge false)
      else r = Some Event.user_cancelled
           \/ exists accepted, r = Some (Event.confirm_merge accepted)
  | Effect.merge_and_cleanup prUrl _ => r = Some (Event.merge_done prUrl)
  | Effect.collect_files git =>
      exists cached_names diff_names,
        r = Some (Event.files_collected (collect_files git cached_names diff_names))
  | Effect.prompt_file_picker files =>
      if isAuto mode
      then
        if isStack mode
        then r = Some Event.user_cancelled
             \/ exists plan, r = Some (Event.stack_plan_generated plan)
        else r = Some (Event.files_picked (map FileEntry.path files))
      else r = Some Event.user_cancelled
           \/ exists selected, r = Some (Event.files_picked selected)
  | Effect.stage_files _ => exists shortStat, r = Some (Event.files_staged shortStat)
  | Effect.get_staged_diff => exists diff, r = Some (Event.diff_ready diff)
  | Effect.generate_commit_details _ =>
      (exists details, r = Some (Event.details_generated details))
      \/ r = Some Event.details_failed
  | Effect.prompt_branch_name suggestion =>
      if isAuto mode then r = Some (Event.branch_confirmed suggestion)
      else r = Some Event.user_cancelled
           \/ exists branchName, r = Some (Event.branch_confirmed branchName)
  | Effect.show_commit_message _ => r = None
  | Effect.prompt_commit_action =>
      if isAuto mode then r = Some (Event.commit_action act_accept)
      else r = Some Event.user_cancelled
           \/ exists action, r = Some (Event.commit_action action)
  | Effect.open_editor _ => exists edited, r = Some (Event.commit_edited edited)
  | Effect.commit_only _ _ _ => r = Some Event.commit_done
  | Effect.log_pr_exists _ => r = None
  | Effect.show_pr_details _ => r = None
  | Effect.prompt_create_pr _ =>
      if isAuto mode then r = Some (Event.confirm_pr true)
      else r = Some Event.user_cancelled
           \/ exists accepted, r = Some (Event.confirm_pr accepted)
  | Effect.create_full_pr _ _ => exists prUrl, r = Some (Event.pr_created prUrl)
  | Effect.log_merge_skip _ _ _ => r = None
  | Effect.log_pr_skip _ => r = None
  | Effect.unstage_all => r = None
  | Effect.check_remote_status _ => exists behind, r = Some (Event.remote_status behind)
  | Effect.prompt_confirm_pull _ =>
      if isAuto mode then r = Some (Event.confirm_pull true)
      else exists accepted, r = Some (Event.confirm_pull accepted)
  | Effect.pull_remote _ =>
      (exists message, r = Some (Event.pull_conflict message))
      \/ r = Some Event.pull_done
  | Effect.prompt_post_commit _ =>
      match mode with
      | mode_auto goal_local _ => r = Some (Event.post_commit_choice choice_done)
      | mode_auto goal_push _ => r = Some (Event.post_commit_choice choice_push_only)
      | mode_auto goal_pr _ => r = Some (Event.post_commit_choice choice_create_pr)
      | _ => exists choice, r = Some (Event.post_commit_choice choice)
      end
  | Effect.execute_stack_commit _ _ _ _ index =>
      r = Some (Event.stack_commit_done (index + 1))
  end.

(** A state handles an event when its case of [transition] does not end in
    the unexpected-event error. *)
Definition handles (s : State.t) (e : Event.t) : Prop :=
  State.kind (state (transition s e)) <> "error".

(** The states that are entered with a prompt or a check whose
    [user_cancelled] answer they have no case for. *)
Definition drops_user_cancelled (s : State.t) : bool :=
  match s with
  | State.preflight
  | State.fast_path_pushing _ _
  | State.pushing _ _ _ _
  | State.fast_path_confirming_pr _ _
  | State.fast_path_confirming_merge _ _
  | State.confirming_commit _ _ _ => true
  | _ => false
  end.

(** The context that a state carries, if it carries one. *)
Definition git_of (s : State.t) : option GitContext.t :=
  match s with
  | State.preflight | State.done _ | State.cancelled _ | State.error _
  | State.nothing_to_ship => None
  | State.fast_path_logging git
  | State.fast_path_pushing git _
  | State.fast_path_checking_pr git
  | State.fast_path_generating_pr git _
  | State.fast_path_confirming_pr git _
  | State.fast_path_creating_pr git _
  | State.fast_path_confirming_merge git _
  | State.fast_path_merging git _
  | State.collecting_files git
  | State.picking_files git _
  | State.staging_files git _
  | State.getting_diff git
  | State.generating_details git _
  | State.confirming_branch git _
  | State.confirming_commit git _ _
  | State.editing_commit git _ _
  | State.committing git _ _ _
  | State.post_commit_checking_pr git _ _
  | State.post_commit git _ _ _
  | State.pushing git _ _ _
  | State.checking_pr git _ _
  | State.confirming_pr git _ _
  | State.stack_committing git _ _
  | State.creating_pr git _ _
  | State.confirming_merge git _ _
  | State.merging git _ _
  | State.checking_remote git
  | State.confirming_pull git _
  | State.pulling git
  | State.merge_conflict git _ => Some git
  end.

(** ** The run loop with its executor ([index.ts]) *)

(** One call of [executor.execute]: it returns an event or [null], or it
    throws. *)
Inductive Outcome : Type :=
| returned (result : option Event.t)
| threw (message : string).

(** The [for] loop over the effects of a turn.  [execute] acts on the world
    [W] outside the program.  The result lists the effects that were given
    to the executor and holds the last event returned, or the message of
    the exception that ended the loop. *)
Fixpoint execute_effects {W : Type} (execute : W -> Effect.t -> W * Outcome)
    (w : W) (effs : list Effect.t) (event : option Event.t)
    : W * list Effect.t * (option Event.t + string) :=
  match effs with
  | [] => (w, [], inl event)
  | eff :: rest =>
      match execute w eff with
      | (w', returned result) =>
          let event' := match result with Some ev => Some ev | None => event end in
          match execute_effects execute w' rest event' with
          | (w'', given, res) => (w'', eff :: given, res)
          end
      | (w', threw message) => (w', [eff], inr message)
      end
  end.

Record LoopResult : Type := mkLoopResult {
  final : State.t;
  executed : list Effect.t;
  finished : bool
}.

(** The [while (!isTerminal(state))] loop, for at most [fuel] turns. *)
Fixpoint run_loop {W : Type} (execute : W -> Effect.t -> W * Outcome)
    (fuel : nat) (w : W) (s : State.t) (effs : list Effect.t) : LoopResult :=
  match fuel with
  | O => mkLoopResult s [] (isTerminal s)
  | S fuel' =>
      if isTerminal s then mkLoopResult s [] true
      else
        match execute_effects execute w effs None with
        | (_, given, inr message) => mkLoopResult (State.error message) given true
        | (_, given, inl None) =>
            mkLoopResult (State.error "No event produced — state machine stalled.")
              given true
        | (w', given, inl (Some event)) =>
            let next := transition s event in
            let r := run_loop execute fuel' w' (state next) (effects next) in
            mkLoopResult (final r) (given ++ executed r)%list (finished r)
        end
  end.

(** The program starts the loop in [preflight] with the tool check. *)
Definition ship {W : Type} (execute : W -> Effect.t -> W * Outcome)
    (fuel : nat) (w : W) : LoopResult :=
  run_loop execute fuel w State.preflight [Effect.check_tools].

(** The effects that only log or clean up: the executor returns [null] for
    them. *)
Definition returns_null (effect : Effect.t) : bool :=
  match effect with
  | Effect.log_info _ | Effect.show_note _ _ | Effect.log_pr_found _
  | Effect.log_pr_created _ | Effect.show_commit_message _
  | Effect.log_pr_exists _ | Effect.show_pr_details _
  | Effect.log_merge_skip _ _ _ | Effect.log_pr_skip _ | Effect.unstage_all => true
  | _ => false
  end.

(** An executor that answers every effect from a script of outcomes. *)
Definition scripted (script : list Outcome) (eff : Effect.t) : list Outcome * Outcome :=
  match script with
  | [] => ([], threw "script exhausted")
  | o :: rest => (rest, o)
  end.

(** The branch that an effect names for a git or forge command. *)
Definition named_branch (effect : Effect.t) : option string :=
  match effect with
  | Effect.push_branch branch
  | Effect.check_existing_pr branch
  | Effect.create_pr branch _
  | Effect.create_full_pr branch _
  | Effect.check_remote_status branch
  | Effect.pull_remote branch => Some branch
  | Effect.commit_only branchName _ _
  | Effect.log_merge_skip _ branchName _
  | Effect.log_pr_skip branchName => Some branchName
  | _ => None
  end.

(** The states of a round of the full path that starts off the trunk on the
    branch [cb]: their context is off the trunk on [cb], and the branch name
    they hold, if they hold one, is [cb]. *)
Definition in_round_on (cb : string) (s : State.t) : Prop :=
  match s with
  | State.collecting_files git
  | State.picking_files git _
  | State.staging_files git _
  | State.getting_diff git
  | State.generating_details git _
  | State.stack_committing git _ _ =>
      GitContext.currentBranch git = cb /\ GitContext.onMain git = false
  | State.confirming_commit git _ branchName
  | State.editing_commit git _ branchName
  | State.committing git _ branchName _
  | State.post_commit_checking_pr git _ branchName
  | State.post_commit git _ branchName _
  | State.pushing git branchName _ _
  | State.checking_pr git _ branchName
  | State.confirming_pr git _ branchName
  | State.creating_pr git _ branchName
  | State.confirming_merge git branchName _
  | State.merging git branchName _ =>
      GitContext.currentBranch git = cb /\ GitContext.onMain git = false
      /\ branchName = cb
  | State.done _ | State.cancelled _ | State.error _ | State.nothing_to_ship
  | State.merge_conflict _ _ => True
  | _ => False
  end.

(** The effects pending for a state answer it: all of them but the last only
    log, and every event that the last one can return is handled by the state
    or is a [user_cancelled] that the state drops. *)
Definition answers (mode : CliMode) (s : State.t) (effs : list Effect.t) : Prop :=
  exists logs eff,
    effs = (logs ++ [eff])%list
    /\ Forall (fun l => forall r, may_return mode l r -> r = None) logs
    /\ forall r,
         may_return mode eff r ->
         exists ev,
           r = Some ev
           /\ (handles s ev
               \/ (ev = Event.user_cancelled /\ drops_user_cancelled s = true)).

(** Where the message of a final [error] state can come from: an exception
    of the executor, or a [user_cancelled] that a state drops. *)
Definition error_explained {W : Type} (execute : W -> Effect.t -> W * Outcome)
    (message : string) : Prop :=
  (exists w eff w', execute w eff = (w', threw message))
  \/ (exists s,
         drops_user_cancelled s = true
         /\ State.error message = state (invalid s Event.user_cancelled)).

(** An executor that declines or cancels wherever it can. *)
Definition declining_executor (w : unit) (eff : Effect.t) : unit * Outcome :=
  (w,
   match eff with
   | Effect.check_tools => returned (Some (execute_check_tools no_gh))
   | Effect.show_commit_log _ => returned (Some (Event.commit_log_ready EmptyString))
   | Effect.push_branch _ => returned (Some Event.push_done)
   | Effect.check_existing_pr _ => returned (Some Event.no_pr)
   | Effect.get_diff_main => returned (Some (Event.diff_ready EmptyString))
   | Effect.generate_pr_details _ => returned (Some Event.pr_details_failed)
   | Effect.prompt_confirm_pr _ => returned (Some Event.user_cancelled)
   | Effect.create_pr _ _ => returned (Some (Event.pr_created EmptyString))
   | Effect.prompt_confirm_merge _ => returned (Some Event.user_cancelled)
   | Effect.merge_and_cleanup prUrl _ => returned (Some (Event.merge_done prUrl))
   | Effect.collect_files git =>
       returned (Some (Event.files_collected
                         (collect_files git EmptyString EmptyString)))
   | Effect.prompt_file_picker _ => returned (Some Event.user_cancelled)
   | Effect.stage_files _ => returned (Some (Event.files_staged EmptyString))
   | Effect.get_staged_diff => returned (Some (Event.diff_ready EmptyString))
   | Effect.generate_commit_details _ => returned (Some Event.details_failed)
   | Effect.prompt_branch_name _ => returned (Some Event.user_cancelled)
   | Effect.prompt_commit_action => returned (Some Event.user_cancelled)
   | Effect.open_editor _ => returned (Some (Event.commit_edited EmptyString))
   | Effect.commit_only _ _ _ => returned (Some Event.commit_done)
   | Effect.prompt_create_pr _ => returned (Some Event.user_cancelled)
   | Effect.create_full_pr _ _ => returned (Some (Event.pr_created EmptyString))
   | Effect.check_remote_status _ => returned (Some (Event.remote_status 0))
   | Effect.prompt_confirm_pull _ => returned (Some (Event.confirm_pull false))
   | Effect.pull_remote _ => returned (Some Event.pull_done)
   | Effect.prompt_post_commit _ =>
       returned (Some (Event.post_commit_choice choice_done))
   | Effect.execute_stack_commit _ _ _ _ index =>
       returned (Some (Event.stack_commit_done (index + 1)))
   | _ => returned None
   end).

(** * Properties *)

Ltac split_if_goal :=
  repeat match goal with
         | |- context [if ?c then _ else _] => destruct c eqn:?
         end.

(** ** Terminal states *)

Lemma isTerminal_kinds (s : State.t) :
  isTerminal s = true <->
  In (State.kind s) ["done"; "cancelled"; "error"; "nothing_to_ship"; "merge_conflict"].
Proof.
  split.
  - destruct s; simpl; intros H; try discriminate H; tauto.
  - destruct s; simpl; intros H; try reflexivity;
      repeat (destruct H as [H | H]; [discriminate H |]); contradiction.
Qed.

(** C1: in each of the terminal states (done, cancelled, error,
    nothing_to_ship, merge_conflict) every event is answered by the error
    state, with the message
    [Unexpected event "<event kind>" in state "<state kind>"] and with no
    effect. *)
Theorem terminal_states_reject_every_event (s : State.t) (e : Event.t) :
  isTerminal s = true ->
  transition s e =
    mkTransition
      (State.error
         ("Unexpected event " ++ dquote ++ Event.kind e ++ dquote
          ++ " in state " ++ dquote ++ State.kind s ++ dquote))
      []
  /\ isTerminal (state (transition s e)) = true.
Proof.
  intros Hterm.
  destruct s; simpl in Hterm; try discriminate Hterm; split; reflexivity.
Qed.

Lemma terminal_states_reject_every_event_witness :
  isTerminal (State.merge_conflict feature_git "CONFLICT in file.ts") = true
  /\ state (transition (State.merge_conflict feature_git "CONFLICT in file.ts")
              (Event.confirm_pull true))
     = State.error
         ("Unexpected event " ++ dquote ++ "confirm_pull" ++ dquote
          ++ " in state " ++ dquote ++ "merge_conflict" ++ dquote).
Proof.
  split; [reflexivity |].
  destruct (terminal_states_reject_every_event
              (State.merge_conflict feature_git "CONFLICT in file.ts")
              (Event.confirm_pull true)) as [Heq _]; [reflexivity |].
  rewrite Heq. reflexivity.
Defined.

(** ** Preflight and the pull check *)

(** C5: with no change, no unpushed commit and no unmerged commit, the
    result of the tool check sends [preflight] to [nothing_to_ship] with no
    effect, whatever the other fields of the context are. *)
Theorem preflight_nothing_to_ship (git : GitContext.t) :
  GitContext.hasChanges git = false ->
  GitContext.unpushedCount git = 0 ->
  GitContext.unmergedCount git = 0 ->
  transition State.preflight (Event.tools_ok git)
  = mkTransition State.nothing_to_ship [].
Proof.
  intros Hchanges Hunpushed Hunmerged.
  simpl. rewrite Hchanges, Hunpushed, Hunmerged. reflexivity.
Qed.

Lemma preflight_nothing_to_ship_witness :
  transition State.preflight (Event.tools_ok clean_git)
  = mkTransition State.nothing_to_ship [].
Proof.
  apply (preflight_nothing_to_ship clean_git); reflexivity.
Defined.

Lemma continueAfterPullCheck_nothing_to_ship (git : GitContext.t) :
  GitContext.hasChanges git = false ->
  GitContext.unpushedCount git = 0 ->
  GitContext.unmergedCount git = 0 ->
  continueAfterPullCheck git = mkTransition State.nothing_to_ship [].
Proof.
  intros Hchanges Hunpushed Hunmerged.
  unfold continueAfterPullCheck.
  rewrite Hchanges, Hunpushed, Hunmerged. reflexivity.
Qed.

Lemma invalid_kind (s : State.t) (e : Event.t) :
  State.kind (state (invalid s e)) = "error".
Proof. reflexivity. Qed.

Lemma continueAfterPullCheck_kind (git : GitContext.t) :
  In (State.kind (state (continueAfterPullCheck git)))
     ["nothing_to_ship"; "fast_path_logging"; "collecting_files"].
Proof.
  unfold continueAfterPullCheck.
  destruct (negb (GitContext.hasChanges git)
            && (GitContext.unpushedCount git =? 0)
            && (GitContext.unmergedCount git =? 0)); [simpl; tauto |].
  destruct (negb (GitContext.hasChanges git)
            && ((0 <? GitContext.unpushedCount git)
                || (0 <? GitContext.unmergedCount git))); simpl; tauto.
Qed.

Lemma continueAfterPullCheck_not_confirming_pull (git : GitContext.t) :
  State.kind (state (continueAfterPullCheck git)) <> "confirming_pull".
Proof.
  intros H. pose proof (continueAfterPullCheck_kind git) as Hin.
  rewrite H in Hin. simpl in Hin.
  repeat (destruct Hin as [Hin | Hin]; [discriminate Hin |]). contradiction.
Qed.

Lemma confirming_pull_only_from_checking_remote (s : State.t) (e : Event.t) :
  State.kind (state (transition s e)) = "confirming_pull" ->
  exists git behind,
    s = State.checking_remote git /\ e = Event.remote_status behind /\ 0 < behind.
Proof.
  destruct s; destruct e; cbn [transition];
    try (rewrite invalid_kind; intros H; discriminate H);
    try (cbn; intros H; discriminate H);
    split_if_goal;
    try (cbn; intros H; discriminate H);
    try (intros H; exfalso;
         exact (continueAfterPullCheck_not_confirming_pull _ H)).
  all: try (match goal with
            | a : CommitAction |- _ => destruct a
            | c : PostCommitChoice |- _ => destruct c
            | p : PostPush |- _ => destruct p
            end; cbn; intros H; discriminate H).
  intros _. exists git, behind. repeat split.
  apply Z.ltb_lt. assumption.
Qed.

(** C6: a transition enters [confirming_pull] exactly when it is the one of
    [checking_remote] on a [remote_status] event with [behind > 0]; with
    [behind = 0] the transition of [checking_remote] is
    [continueAfterPullCheck] of the same context. *)
Theorem confirming_pull_iff_behind :
  (forall (s : State.t) (e : Event.t),
      State.kind (state (transition s e)) = "confirming_pull" <->
      exists git behind,
        s = State.checking_remote git /\ e = Event.remote_status behind /\ 0 < behind)
  /\ (forall git behind,
         0 < behind ->
         transition (State.checking_remote git) (Event.remote_status behind)
         = mkTransition (State.confirming_pull git behind)
             [Effect.prompt_confirm_pull behind])
  /\ (forall git,
         transition (State.checking_remote git) (Event.remote_status 0)
         = continueAfterPullCheck git).
Proof.
  split; [| split].
  - intros s e. split.
    + apply confirming_pull_only_from_checking_remote.
    + intros (git & behind & -> & -> & Hpos).
      apply Z.ltb_lt in Hpos. cbn [transition]. rewrite Hpos. reflexivity.
  - intros git behind Hpos. apply Z.ltb_lt in Hpos.
    cbn [transition]. rewrite Hpos. reflexivity.
  - intros git. reflexivity.
Qed.

(** When [preflight] makes no pull check (on the trunk, or with no upstream)
    it continues with [continueAfterPullCheck] as well. *)
Lemma preflight_without_pull_check (git : GitContext.t) :
  negb (GitContext.onMain git) && GitContext.hasUpstream git = false ->
  transition State.preflight (Event.tools_ok git) = continueAfterPullCheck git.
Proof.
  intros Hno. cbn [transition]. unfold continueAfterPullCheck. rewrite Hno.
  destruct (negb (GitContext.hasChanges git)
            && (GitContext.unpushedCount git =? 0)
            && (GitContext.unmergedCount git =? 0)); reflexivity.
Qed.

(** ** The tool check *)

(** C7: when [gh] is missing the tool check returns [user_cancelled]; fed to
    [preflight], that event is answered by the error state (the unexpected
    event message), not by [cancelled]. *)
Theorem missing_gh_ends_in_error (w : World.t) :
  World.which_gh w = false ->
  execute_check_tools w = Event.user_cancelled
  /\ transition State.preflight (execute_check_tools w)
     = mkTransition
         (State.error
            ("Unexpected event " ++ dquote ++ "user_cancelled" ++ dquote
             ++ " in state " ++ dquote ++ "preflight" ++ dquote))
         []
  /\ State.kind (state (transition State.preflight (execute_check_tools w)))
     <> "cancelled".
Proof.
  intros Hgh.
  assert (Hev : execute_check_tools w = Event.user_cancelled).
  { unfold execute_check_tools. rewrite Hgh. reflexivity. }
  rewrite Hev. repeat split. cbn. discriminate.
Qed.

Lemma missing_gh_ends_in_error_witness :
  World.which_gh no_gh = false
  /\ State.kind (state (transition State.preflight (execute_check_tools no_gh)))
     <> "cancelled".
Proof.
  split; [reflexivity |].
  apply (missing_gh_ends_in_error no_gh). reflexivity.
Defined.

(** ** The commit *)

(** C8: [committing] answers [commit_done] with [post_commit_checking_pr];
    its context is the one of [committing] with [onMain] false and every other
    field as it was, its details and branch name are those of [committing],
    and the only effect is [check_existing_pr] for that branch name. *)
Theorem committing_commit_done_frame
    (git : GitContext.t) (details : CommitDetails.t)
    (branchName commitMessage : string) :
  exists git',
    transition (State.committing git details branchName commitMessage)
      Event.commit_done
    = mkTransition (State.post_commit_checking_pr git' details branchName)
        [Effect.check_existing_pr branchName]
    /\ GitContext.onMain git' = false
    /\ GitContext.currentBranch git' = GitContext.currentBranch git
    /\ GitContext.hasStaged git' = GitContext.hasStaged git
    /\ GitContext.hasUnstaged git' = GitContext.hasUnstaged git
    /\ GitContext.hasUntracked git' = GitContext.hasUntracked git
    /\ GitContext.hasChanges git' = GitContext.hasChanges git
    /\ GitContext.hasUpstream git' = GitContext.hasUpstream git
    /\ GitContext.unpushedCount git' = GitContext.unpushedCount git
    /\ GitContext.unmergedCount git' = GitContext.unmergedCount git
    /\ GitContext.untrackedRaw git' = GitContext.untrackedRaw git.
Proof.
  exists (GitContext.with_onMain git false).
  repeat split.
Qed.

(** ** Cancellation at the confirmation points *)

(** C2, as stated, fails: in [fast_path_generating_pr], a confirmation point
    of the list, [user_cancelled] gives [done], not [cancelled]. *)
Lemma user_cancelled_not_always_cancelled :
  confirmation_point (State.fast_path_generating_pr feature_git "diff") = true
  /\ State.kind
       (state (transition (State.fast_path_generating_pr feature_git "diff")
                 Event.user_cancelled))
     <> "cancelled".
Proof.
  split; [reflexivity | cbn; discriminate].
Qed.

(** C2, amended: [user_cancelled] gives [cancelled] in [picking_files],
    [confirming_branch] (there with [unstage_all]), [confirming_pr] and
    [confirming_merge]; in [confirming_commit] the cancel action gives
    [cancelled] with [unstage_all]; in [fast_path_generating_pr]
    [user_cancelled] gives [done] with the hint to create the PR by hand and
    no effect. *)
Theorem user_cancelled_by_state :
  (forall git files,
      transition (State.picking_files git files) Event.user_cancelled
      = mkTransition (State.cancelled "Cancelled.") [])
  /\ (forall git details,
         transition (State.confirming_branch git details) Event.user_cancelled
         = mkTransition (State.cancelled "Cancelled.") [Effect.unstage_all])
  /\ (forall git details branchName,
         transition (State.confirming_pr git details branchName) Event.user_cancelled
         = mkTransition (State.cancelled "Cancelled.") [])
  /\ (forall git branchName prUrl,
         transition (State.confirming_merge git branchName prUrl) Event.user_cancelled
         = mkTransition (State.cancelled "Cancelled.") [])
  /\ (forall git details branchName,
         transition (State.confirming_commit git details branchName)
           (Event.commit_action act_cancel)
         = mkTransition (State.cancelled "Aborted.") [Effect.unstage_all])
  /\ (forall git diff,
         transition (State.fast_path_generating_pr git diff) Event.user_cancelled
         = mkTransition (State.done "Branch pushed. Create PR manually.") []).
Proof.
  repeat split.
Qed.

(** The confirmation points of the list at which [user_cancelled] is not
    handled: the event is answered as an unexpected one. *)
Lemma user_cancelled_unhandled :
  (forall git prDetails,
      transition (State.fast_path_confirming_pr git prDetails) Event.user_cancelled
      = invalid (State.fast_path_confirming_pr git prDetails) Event.user_cancelled)
  /\ (forall git prUrl,
         transition (State.fast_path_confirming_merge git prUrl) Event.user_cancelled
         = invalid (State.fast_path_confirming_merge git prUrl) Event.user_cancelled)
  /\ (forall git details branchName,
         transition (State.confirming_commit git details branchName) Event.user_cancelled
         = invalid (State.confirming_commit git details branchName) Event.user_cancelled).
Proof.
  repeat split.
Qed.

(** ** Cancellation after staging *)

Lemma steps_result (events : list Event.t) :
  forall staged s step,
    In step (steps staged s events) ->
    result step = transition (before step) (received step).
Proof.
  induction events as [| e rest IH]; intros staged s step Hin; simpl in Hin.
  - contradiction.
  - destruct (isTerminal s); [contradiction |].
    destruct Hin as [<- | Hin]; [reflexivity | exact (IH _ _ _ Hin)].
Qed.

Lemma steps_run (events : list Event.t) :
  forall staged s, map result (steps staged s events) = run s events.
Proof.
  induction events as [| e rest IH]; intros staged s; simpl.
  - reflexivity.
  - destruct (isTerminal s); [reflexivity |].
    simpl. rewrite IH. reflexivity.
Qed.






(** After a commit, the loop back through [commit_more] reaches
    [picking_files] with nothing staged: cancelling there needs no
    [unstage_all], and none is emitted. *)
Example cancel_after_commit_more :
  map (fun st => (staged_before st, state (result st), effects (result st)))
    (steps true (State.committing feature_git sample_details "feat-thing" "feat: x")
       [Event.commit_done; Event.no_pr; Event.post_commit_choice choice_commit_more;
        Event.files_collected []; Event.user_cancelled])
  = [(true,
      State.post_commit_checking_pr (GitContext.with_onMain feature_git false)
        sample_details "feat-thing",
      [Effect.check_existing_pr "feat-thing"]);
     (false,
      State.post_commit (GitContext.with_onMain feature_git false)
        sample_details "feat-thing" None,
      [Effect.prompt_post_commit None]);
     (false,
      State.collecting_files (GitContext.with_onMain feature_git false),
      [Effect.collect_files (GitContext.with_onMain feature_git false)]);
     (false,
      State.picking_files (GitContext.with_onMain feature_git false) [],
      [Effect.prompt_file_picker []]);
     (false, State.cancelled "Cancelled.", [])].
Proof. reflexivity. Qed.

(** ** Stack committing *)

Lemma array_get_of_nat {A : Type} (xs : list A) (k : nat) :
  array_get xs (Z.of_nat k) = nth_error xs k.
Proof.
  unfold array_get.
  destruct (Z.ltb_spec (Z.of_nat k) 0) as [Hneg | _]; [lia |].
  rewrite Nat2Z.id. reflexivity.
Qed.

Lemma stack_commit_effects_length (plan : StackPlan.t) (onMain : bool)
    (gs : list StackGroup.t) :
  forall i, length (stack_commit_effects plan onMain i gs) = length gs.
Proof.
  induction gs as [| g rest IH]; intros i; simpl; [reflexivity |].
  rewrite IH. reflexivity.
Qed.

Lemma run_cons (s : State.t) (e : Event.t) (rest : list Event.t) :
  isTerminal s = false ->
  run s (e :: rest) = transition s e :: run (state (transition s e)) rest.
Proof.
  intros Hterm. cbn [run]. rewrite Hterm. reflexivity.
Qed.

Lemma run_stack_tail (git : GitContext.t) (plan : StackPlan.t) :
  forall (rest committed : list StackGroup.t) (cur : Z),
    StackPlan.groups plan = (committed ++ rest)%list ->
    committed <> [] ->
    exists commits,
      run (State.stack_committing git plan cur)
        (map (fun i => Event.stack_commit_done (Z.of_nat i))
           (seq (length committed) (S (length rest))))
      = (commits ++ [stack_completion git plan])%list
      /\ length commits = length rest
      /\ flat_map effects commits
         = stack_commit_effects plan (GitContext.onMain git) (length committed) rest
      /\ Forall (fun t => State.kind (state t) = "stack_committing") commits.
Proof.
  induction rest as [| g rest IH]; intros committed cur Hgroups Hne.
  - exists []. cbn [length seq map].
    rewrite run_cons by reflexivity. cbn [run transition].
    assert (Hlt : (Z.of_nat (length committed)
                   <? array_length (StackPlan.groups plan)) = false).
    { unfold array_length. rewrite Hgroups, app_nil_r. apply Z.ltb_ge. lia. }
    rewrite Hlt. repeat split. constructor.
  - change (seq (length committed) (S (length (g :: rest))))
      with (length committed :: seq (S (length committed)) (S (length rest))).
    rewrite map_cons, run_cons by reflexivity. cbn [transition].
    assert (Hlt : (Z.of_nat (length committed)
                   <? array_length (StackPlan.groups plan)) = true).
    { unfold array_length. rewrite Hgroups, length_app. cbn [length].
      apply Z.ltb_lt. lia. }
    rewrite Hlt. cbn [state].
    assert (Hget : array_get (StackPlan.groups plan) (Z.of_nat (length committed))
                   = Some g).
    { rewrite array_get_of_nat, Hgroups, nth_error_app2 by lia.
      rewrite Nat.sub_diag. reflexivity. }
    rewrite Hget.
    destruct (IH (committed ++ [g])%list (Z.of_nat (length committed)))
      as (commits & Hrun & Hlen & Heffs & Hkinds).
    { rewrite <- app_assoc. exact Hgroups. }
    { destruct committed; discriminate. }
    rewrite length_app in Hrun, Heffs. cbn [length] in Hrun, Heffs.
    rewrite Nat.add_1_r in Hrun, Heffs.
    eexists (_ :: commits). rewrite Hrun. split; [reflexivity |].
    split; [cbn [length]; rewrite Hlen; reflexivity |].
    split.
    + cbn [flat_map effects app stack_commit_effects]. rewrite Heffs.
      destruct (length committed) eqn:Hc.
      * destruct committed; [congruence | discriminate Hc].
      * reflexivity.
    + constructor; [reflexivity | exact Hkinds].
Qed.

(** C4: a plan of N >= 1 groups, delivered to [picking_files] and followed by
    the replies [stack_commit_done 1], ..., [stack_commit_done N] (each
    carries the index of the commit it answers plus one), makes the machine
    take N turns in [stack_committing], which emit the N
    [execute_stack_commit] effects of the groups, in the order of the groups
    and with the indices 0 .. N-1, and then one turn into
    [post_commit_checking_pr] whose details carry the commit messages of the
    groups joined, in order, by line feeds. *)
Theorem stack_plan_commits_in_order
    (git : GitContext.t) (files : list FileEntry.t) (plan : StackPlan.t) :
  StackPlan.groups plan <> [] ->
  exists commits details branch,
    run (State.picking_files git files)
      (Event.stack_plan_generated plan
         :: stack_events (length (StackPlan.groups plan)))
    = (commits
         ++ [mkTransition
               (State.post_commit_checking_pr (GitContext.with_onMain git false)
                  details branch)
               [Effect.check_existing_pr branch]])%list
    /\ length commits = length (StackPlan.groups plan)
    /\ Forall (fun t => State.kind (state t) = "stack_committing") commits
    /\ flat_map effects commits
       = stack_commit_effects plan (GitContext.onMain git) 0 (StackPlan.groups plan)
    /\ CommitDetails.commitMessage details
       = String.concat newline
           (map StackGroup.commitMessage (StackPlan.groups plan)).
Proof.
  intros Hne.
  destruct (StackPlan.groups plan) as [| g0 rest] eqn:Hgroups; [congruence |].
  destruct (run_stack_tail git plan rest [g0] 0 Hgroups)
    as (commits & Hrun & Hlen & Heffs & Hkinds); [discriminate |].
  exists (startStackCommitting git plan :: commits).
  eexists. eexists.
  rewrite run_cons by reflexivity. cbn [transition].
  unfold stack_events. cbn [length] in Hrun |- *.
  unfold startStackCommitting at 2. cbn [state].
  rewrite Hrun. unfold stack_completion.
  split; [reflexivity |].
  split; [rewrite Hlen; reflexivity |].
  split; [constructor; [reflexivity | exact Hkinds] |].
  split.
  - unfold startStackCommitting.
    cbn [flat_map effects app stack_commit_effects Nat.eqb].
    rewrite Heffs, Hgroups. reflexivity.
  - cbn [CommitDetails.commitMessage]. rewrite Hgroups. reflexivity.
Qed.

Lemma stack_plan_commits_in_order_witness :
  StackPlan.groups sample_plan <> []
  /\ exists commits details branch,
       run (State.picking_files main_git [])
         (Event.stack_plan_generated sample_plan :: stack_events 2)
       = (commits
            ++ [mkTransition
                  (State.post_commit_checking_pr
                     (GitContext.with_onMain main_git false) details branch)
                  [Effect.check_existing_pr branch]])%list
       /\ length commits = 2%nat
       /\ Forall (fun t => State.kind (state t) = "stack_committing") commits
       /\ flat_map effects commits
          = [Effect.execute_stack_commit (Some (StackGroup.mk ["a.ts"] "feat: a"))
               "feat-stack" true true 0;
             Effect.execute_stack_commit
               (Some (StackGroup.mk ["b.ts"; "c.ts"] "fix: b"))
               "feat-stack" false false 1]
       /\ CommitDetails.commitMessage details = "feat: a" ++ newline ++ "fix: b".
Proof.
  split; [discriminate |].
  apply (stack_plan_commits_in_order main_git [] sample_plan). discriminate.
Defined.

(** What the executor replies to the commit effect of a turn in
    [stack_committing] is the event that [stack_events] lists for it. *)
Lemma stack_commit_reply_is_next_index
    (git : GitContext.t) (plan : StackPlan.t) (cur next : Z) :
  next < array_length (StackPlan.groups plan) ->
  map execute_stack_commit_reply
    (effects (transition (State.stack_committing git plan cur)
                (Event.stack_commit_done next)))
  = [Some (Event.stack_commit_done (next + 1))].
Proof.
  intros Hlt. apply Z.ltb_lt in Hlt. cbn [transition]. rewrite Hlt. reflexivity.
Qed.

(** C9: [picking_files] answers [stack_plan_generated] by reading the groups
    of the plan at index 0 without a test for emptiness.  When the plan has a
    group, the read is in bounds and the effect carries the first group,
    [isFirst = true] and [index = 0]; when it has none, the same effect is
    emitted with no group in it, so a well-formed effect needs a plan with at
    least one group.  In [stack_committing] a group is read at [nextIndex]
    only under [nextIndex < plan.groups.length], and that read is in bounds
    for every index from 0 on. *)
Theorem stack_first_group_in_bounds
    (git : GitContext.t) (files : list FileEntry.t) (plan : StackPlan.t) :
  (StackPlan.groups plan <> [] ->
   exists g0 rest,
     StackPlan.groups plan = g0 :: rest
     /\ transition (State.picking_files git files) (Event.stack_plan_generated plan)
        = mkTransition (State.stack_committing git plan 0)
            [Effect.execute_stack_commit (Some g0) (StackPlan.branchName plan)
               true (GitContext.onMain git) 0])
  /\ (StackPlan.groups plan = [] ->
      transition (State.picking_files git files) (Event.stack_plan_generated plan)
      = mkTransition (State.stack_committing git plan 0)
          [Effect.execute_stack_commit None (StackPlan.branchName plan)
             true (GitContext.onMain git) 0])
  /\ (forall cur nextIndex,
         0 <= nextIndex ->
         nextIndex < array_length (StackPlan.groups plan) ->
         exists g,
           nth_error (StackPlan.groups plan) (Z.to_nat nextIndex) = Some g
           /\ transition (State.stack_committing git plan cur)
                (Event.stack_commit_done nextIndex)
              = mkTransition (State.stack_committing git plan nextIndex)
                  [Effect.execute_stack_commit (Some g) (StackPlan.branchName plan)
                     false false nextIndex])
  /\ (forall cur nextIndex,
         array_length (StackPlan.groups plan) <= nextIndex ->
         forall eff,
           In eff (effects (transition (State.stack_committing git plan cur)
                              (Event.stack_commit_done nextIndex))) ->
           execute_stack_commit_reply eff = None).
Proof.
  split; [| split; [| split]].
  - intros Hne.
    destruct (StackPlan.groups plan) as [| g0 rest] eqn:Hgroups; [congruence |].
    exists g0, rest. split; [reflexivity |].
    cbn [transition]. unfold startStackCommitting. rewrite Hgroups. reflexivity.
  - intros Hgroups. cbn [transition]. unfold startStackCommitting.
    rewrite Hgroups. reflexivity.
  - intros cur nextIndex Hnonneg Hlt.
    destruct (nth_error (StackPlan.groups plan) (Z.to_nat nextIndex)) as [g |] eqn:Hnth.
    + exists g. split; [reflexivity |].
      cbn [transition]. apply Z.ltb_lt in Hlt. rewrite Hlt.
      unfold array_get.
      destruct (Z.ltb_spec nextIndex 0) as [Hneg | _]; [lia |].
      rewrite Hnth. reflexivity.
    + apply nth_error_None in Hnth. unfold array_length in Hlt. lia.
  - intros cur nextIndex Hge eff.
    cbn [transition]. apply Z.ltb_ge in Hge. rewrite Hge.
    cbn [effects In]. intros [<- | []]. reflexivity.
Qed.

Lemma stack_first_group_in_bounds_witness :
  StackPlan.groups sample_plan <> []
  /\ transition (State.picking_files main_git []) (Event.stack_plan_generated sample_plan)
     = mkTransition (State.stack_committing main_git sample_plan 0)
         [Effect.execute_stack_commit (Some (StackGroup.mk ["a.ts"] "feat: a"))
            "feat-stack" true true 0].
Proof.
  split; [discriminate |].
  destruct (stack_first_group_in_bounds main_git [] sample_plan)
    as [Hfirst _].
  destruct Hfirst as (g0 & rest & Hgroups & Htrans); [discriminate |].
  rewrite Htrans. injection Hgroups as <- _. reflexivity.
Defined.

(** In [stack_committing] the test bounds the index from above only: a
    negative [nextIndex] passes it and reads outside the groups. *)
Example stack_commit_done_negative_index :
  transition (State.stack_committing feature_git sample_plan 0)
    (Event.stack_commit_done (-1))
  = mkTransition (State.stack_committing feature_git sample_plan (-1))
      [Effect.execute_stack_commit None "feat-stack" false false (-1)].
Proof. reflexivity. Qed.

(** C10: when [stack_commit_done] carries an index that is not below the
    number of groups, the branch of the synthesized details, of
    [post_commit_checking_pr] and of its [check_existing_pr] effect is the
    current branch of the context if [onMain] is false, and the branch name of
    the plan if [onMain] is true. *)
Theorem stack_completion_branch
    (git : GitContext.t) (plan : StackPlan.t) (cur nextIndex : Z) :
  array_length (StackPlan.groups plan) <= nextIndex ->
  exists details branch,
    transition (State.stack_committing git plan cur) (Event.stack_commit_done nextIndex)
    = mkTransition
        (State.post_commit_checking_pr (GitContext.with_onMain git false)
           details branch)
        [Effect.check_existing_pr branch]
    /\ CommitDetails.branchName details = branch
    /\ CommitDetails.prTitle details = StackPlan.prTitle plan
    /\ CommitDetails.prBody details = StackPlan.prBody plan
    /\ (GitContext.onMain git = false -> branch = GitContext.currentBranch git)
    /\ (GitContext.onMain git = true -> branch = StackPlan.branchName plan).
Proof.
  intros Hge. apply Z.ltb_ge in Hge.
  cbn [transition]. rewrite Hge.
  eexists. eexists. split; [reflexivity |].
  cbn [CommitDetails.branchName CommitDetails.prTitle CommitDetails.prBody].
  repeat split; intros Hmain; rewrite Hmain; reflexivity.
Qed.

Lemma stack_completion_branch_witness :
  array_length (StackPlan.groups sample_plan) <= 2
  /\ exists details,
       transition (State.stack_committing feature_git sample_plan 1)
         (Event.stack_commit_done 2)
       = mkTransition
           (State.post_commit_checking_pr
              (GitContext.with_onMain feature_git false) details "feat-thing")
           [Effect.check_existing_pr "feat-thing"]
       /\ CommitDetails.branchName details = "feat-thing".
Proof.
  split; [vm_compute; discriminate |].
  destruct (stack_completion_branch feature_git sample_plan 1 2)
    as (details & branch & Htrans & Hname & _ & _ & Hfeature & _);
    [vm_compute; discriminate |].
  exists details. rewrite Htrans, Hname, (Hfeature eq_refl). split; reflexivity.
Defined.

(** * Further properties *)

(** ** What the transition function never does *)

Ltac transition_cases s e :=
  destruct s; destruct e; cbn [transition];
  unfold continueAfterPullCheck, startStackCommitting, invalid;
  repeat match goal with
         | |- context [if negb ?b then _ else _] => is_var b; destruct b; cbn [negb]
         | |- context [if ?b then _ else _] => is_var b; destruct b
         | |- context [if ?c then _ else _] => destruct c eqn:?
         end;
  try (match goal with
       | a : CommitAction |- _ => destruct a
       | c : PostCommitChoice |- _ => destruct c
       | p : PostPush |- _ => destruct p
       end).

Ltac in_effects H :=
  cbn [effects In] in H;
  repeat (destruct H as [H | H]; [try discriminate H |]);
  try contradiction.

Lemma error_is_invalid (s : State.t) (e : Event.t) :
  State.kind (state (transition s e)) = "error" ->
  transition s e = invalid s e.
Proof.
  destruct s; destruct e; cbn [transition]; try (intros _; reflexivity);
    unfold continueAfterPullCheck, startStackCommitting;
    split_if_goal;
    try (match goal with
         | a : CommitAction |- _ => destruct a
         | c : PostCommitChoice |- _ => destruct c
         | p : PostPush |- _ => destruct p
         end);
    cbn; intros H; discriminate H.
Qed.

(** X1: the error state is the answer to an unexpected event only: whenever
    [transition] returns [error], what it returns is [invalid] of the state
    and the event (the diagnostic message, no effect). *)
Theorem error_only_for_unexpected_event (s : State.t) (e : Event.t) :
  State.kind (state (transition s e)) = "error" ->
  transition s e = invalid s e.
Proof.
  intros Herror. apply error_is_invalid. exact Herror.
Qed.

Lemma error_only_for_unexpected_event_witness :
  transition State.preflight Event.push_done
  = invalid State.preflight Event.push_done.
Proof.
  apply (error_only_for_unexpected_event State.preflight Event.push_done).
  reflexivity.
Defined.

(** X2: [merge_and_cleanup] is emitted only in answer to an accepted
    [confirm_merge], from one of the two merge confirmation states, for the
    PR of that state. *)
Theorem merge_only_when_accepted
    (s : State.t) (e : Event.t) (prUrl : string) (onMain : bool) :
  In (Effect.merge_and_cleanup prUrl onMain) (effects (transition s e)) ->
  e = Event.confirm_merge true
  /\ ((exists git,
          s = State.fast_path_confirming_merge git prUrl
          /\ onMain = GitContext.onMain git)
      \/ (exists git branchName,
             s = State.confirming_merge git branchName prUrl
             /\ onMain = GitContext.onMain git)).
Proof.
  transition_cases s e; intros H; in_effects H.
  - injection H as <- <-. split; [reflexivity |]. left. eauto.
  - injection H as <- <-. split; [reflexivity |]. right. eauto.
Qed.

Lemma merge_only_when_accepted_witness :
  Event.confirm_merge true = Event.confirm_merge true
  /\ ((exists git,
          State.confirming_merge feature_git "feat-thing" "https://pr"
          = State.fast_path_confirming_merge git "https://pr"
          /\ false = GitContext.onMain git)
      \/ (exists git branchName,
             State.confirming_merge feature_git "feat-thing" "https://pr"
             = State.confirming_merge git branchName "https://pr"
             /\ false = GitContext.onMain git)).
Proof.
  apply (merge_only_when_accepted
           (State.confirming_merge feature_git "feat-thing" "https://pr")
           (Event.confirm_merge true) "https://pr" false).
  left. reflexivity.
Defined.

(** X3: a PR is created ([create_pr] on the fast path, [create_full_pr] on
    the full path) only in answer to an accepted [confirm_pr], for the branch
    and with the title and body that the confirmation state holds. *)
Theorem pr_created_only_when_accepted (s : State.t) (e : Event.t) :
  (forall branch prDetails,
      In (Effect.create_pr branch prDetails) (effects (transition s e)) ->
      e = Event.confirm_pr true
      /\ exists git,
           s = State.fast_path_confirming_pr git prDetails
           /\ branch = GitContext.currentBranch git)
  /\ (forall branch details,
         In (Effect.create_full_pr branch details) (effects (transition s e)) ->
         e = Event.confirm_pr true
         /\ exists git, s = State.confirming_pr git details branch).
Proof.
  split; intros branch d; transition_cases s e; intros H; in_effects H;
    injection H as <- <-; split; try reflexivity; eauto.
Qed.

(** X4: [pull_remote] is emitted only in answer to an accepted
    [confirm_pull] in [confirming_pull], for the current branch; and
    [push_branch] only from [fast_path_logging] with unpushed commits (the
    current branch) or from the post-commit choices [create_pr] and
    [push_only] (the branch of the commit). *)
Theorem pull_and_push_only_when_due (s : State.t) (e : Event.t) (branch : string) :
  (In (Effect.pull_remote branch) (effects (transition s e)) ->
   exists git behind,
     s = State.confirming_pull git behind
     /\ e = Event.confirm_pull true
     /\ branch = GitContext.currentBranch git)
  /\ (In (Effect.push_branch branch) (effects (transition s e)) ->
      (exists git commitLog,
          s = State.fast_path_logging git
          /\ e = Event.commit_log_ready commitLog
          /\ 0 < GitContext.unpushedCount git
          /\ branch = GitContext.currentBranch git)
      \/ (exists git details prUrl choice,
             s = State.post_commit git details branch prUrl
             /\ e = Event.post_commit_choice choice
             /\ (choice = choice_create_pr \/ choice = choice_push_only))).
Proof.
  split; transition_cases s e; intros H; in_effects H; injection H as <-.
  - eauto.
  - left. do 2 eexists. repeat split. apply Z.ltb_lt. assumption.
  - right. do 4 eexists. eauto.
  - right. do 4 eexists. eauto.
Qed.

(** X5: a transition never rewrites the context it carries: the context of
    the next state is the one of the state, or that one with [onMain] set to
    false; in particular [currentBranch] stays what the tool check found. *)
Theorem git_context_kept (s : State.t) (e : Event.t) (g g' : GitContext.t) :
  git_of s = Some g ->
  git_of (state (transition s e)) = Some g' ->
  (g' = g \/ g' = GitContext.with_onMain g false)
  /\ GitContext.currentBranch g' = GitContext.currentBranch g.
Proof.
  transition_cases s e; cbn; intros Hg Hg'; try discriminate;
    injection Hg as <-; injection Hg' as <-; split; auto.
Qed.

Lemma git_context_kept_witness :
  (GitContext.with_onMain main_git false = main_git
   \/ GitContext.with_onMain main_git false = GitContext.with_onMain main_git false)
  /\ GitContext.currentBranch (GitContext.with_onMain main_git false)
     = GitContext.currentBranch main_git.
Proof.
  apply (git_context_kept
           (State.committing main_git sample_details "feat-foo" "feat: add foo")
           Event.commit_done); reflexivity.
Defined.

(** ** The executor and the states that await its answers *)

Lemma drops_user_cancelled_unhandled (s : State.t) :
  drops_user_cancelled s = true -> ~ handles s Event.user_cancelled.
Proof.
  unfold handles.
  destruct s; cbn [drops_user_cancelled]; intros H; try discriminate H;
    intros Hne; apply Hne; reflexivity.
Qed.

Lemma execute_check_tools_cases (w : World.t) :
  execute_check_tools w = Event.user_cancelled
  \/ exists git, execute_check_tools w = Event.tools_ok git.
Proof.
  unfold execute_check_tools.
  destruct (negb (World.which_gh w)); [left; reflexivity | right; eauto].
Qed.

Ltac from_may_return H :=
  cbn [may_return isAuto isStack] in H;
  repeat match goal with
         | H' : _ \/ _ |- _ => destruct H' as [H' | H']
         | H' : _ /\ _ |- _ => destruct H' as [? H']
         | H' : exists _, _ |- _ => destruct H' as [? H']
         | H' : match ?g with goal_local => _ | goal_push => _ | goal_pr => _ end |- _ =>
             destruct g
         end;
  try discriminate H;
  try (injection H as ->).

Lemma turn_events_handled (mode : CliMode)
    (s : State.t) (e : Event.t) (eff : Effect.t) (ev : Event.t) :
  isTerminal (state (transition s e)) = false ->
  In eff (effects (transition s e)) ->
  may_return mode eff (Some ev) ->
  handles (state (transition s e)) ev
  \/ (ev = Event.user_cancelled
      /\ drops_user_cancelled (state (transition s e)) = true).
Proof.
  transition_cases s e; cbn [state isTerminal]; intros Hterm Hin Hret;
    try discriminate Hterm; in_effects Hin; subst eff;
    destruct mode as [| goal stack |]; try destruct stack;
    from_may_return Hret;
    try (match goal with
         | |- context [execute_check_tools ?w] =>
             destruct (execute_check_tools_cases w) as [Hc | [git' Hc]]; rewrite Hc
         end);
    try (right; split; reflexivity);
    left; unfold handles;
    cbn [transition];
    unfold continueAfterPullCheck, startStackCommitting;
    repeat match goal with
           | |- context [if negb ?b then _ else _] => is_var b; destruct b; cbn [negb]
           | |- context [if ?b then _ else _] => is_var b; destruct b
           | |- context [if ?c then _ else _] => destruct c eqn:?
           | |- context [match ?a with act_accept => _ | act_edit => _ | act_cancel => _ end] =>
               destruct a
           | |- context [match ?c with choice_create_pr => _ | choice_push_only => _
                                   | choice_commit_more => _ | choice_done => _ end] =>
               destruct c
           | |- context [match ?p with pp_check_pr => _ | pp_done => _ end] =>
               destruct p
           end;
    cbn; discriminate.
Qed.

Lemma tool_check_events_handled (mode : CliMode) (ev : Event.t) :
  may_return mode Effect.check_tools (Some ev) ->
  handles State.preflight ev \/ ev = Event.user_cancelled.
Proof.
  intros [w Hret]. injection Hret as ->.
  destruct (execute_check_tools_cases w) as [Hc | [git Hc]]; rewrite Hc;
    [right; reflexivity |].
  left. unfold handles. cbn [transition]. unfold continueAfterPullCheck.
  split_if_goal; cbn; discriminate.
Qed.

(** X6: every event that the executor can return for an effect of a turn is
    one that the state entered by that turn handles, with one kind of
    exception: [user_cancelled] returned to [preflight], [fast_path_pushing],
    [pushing], [fast_path_confirming_pr], [fast_path_confirming_merge] or
    [confirming_commit], which have no case for it.  The same holds for the
    tool check that starts the run in [preflight]. *)
Theorem executor_events_handled (mode : CliMode) :
  (forall (s : State.t) (e : Event.t) (eff : Effect.t) (ev : Event.t),
      isTerminal (state (transition s e)) = false ->
      In eff (effects (transition s e)) ->
      may_return mode eff (Some ev) ->
      handles (state (transition s e)) ev
      \/ (ev = Event.user_cancelled
          /\ drops_user_cancelled (state (transition s e)) = true))
  /\ (forall ev,
         may_return mode Effect.check_tools (Some ev) ->
         handles State.preflight ev \/ ev = Event.user_cancelled)
  /\ (forall s,
         drops_user_cancelled s = true -> ~ handles s Event.user_cancelled).
Proof.
  split; [| split].
  - exact (turn_events_handled mode).
  - exact (tool_check_events_handled mode).
  - exact drops_user_cancelled_unhandled.
Qed.

Lemma turn_ends_with_reply (s : State.t) (e : Event.t) :
  isTerminal (state (transition s e)) = false ->
  exists logs eff,
    effects (transition s e) = (logs ++ [eff])%list
    /\ Forall (fun l => forall mode r, may_return mode l r -> r = None) logs
    /\ (forall mode r, may_return mode eff r -> exists ev, r = Some ev).
Proof.
  transition_cases s e; cbn [state isTerminal effects]; intros Hterm;
    try discriminate Hterm;
    match goal with
    | |- exists logs eff, [?a] = _ /\ _ => exists [], a
    | |- exists logs eff, [?a; ?b] = _ /\ _ => exists [a], b
    end;
    (split; [reflexivity |]);
    (split; [repeat constructor; intros mode r Hret; exact Hret |]);
    intros mode r Hret; destruct mode as [| goal stack |]; try destruct stack;
    cbn [may_return isAuto isStack] in Hret;
    repeat match goal with
           | H' : _ \/ _ |- _ => destruct H' as [H' | H']
           | H' : _ /\ _ |- _ => destruct H' as [? H']
           | H' : exists _, _ |- _ => destruct H' as [? H']
           | H' : match ?g with goal_local => _ | goal_push => _ | goal_pr => _ end |- _ =>
               destruct g
           end;
    eexists; eassumption.
Qed.

(** X7: a turn that enters a state that is not terminal emits exactly one
    effect for which the executor returns an event, as its last effect; for
    the effects before it the executor returns [null].  So the run loop always
    has an event to feed to such a state, unless the executor throws. *)
Theorem non_terminal_turn_ends_with_reply (s : State.t) (e : Event.t) :
  isTerminal (state (transition s e)) = false ->
  exists logs eff,
    effects (transition s e) = (logs ++ [eff])%list
    /\ Forall (fun l => forall mode r, may_return mode l r -> r = None) logs
    /\ (forall mode r, may_return mode eff r -> exists ev, r = Some ev).
Proof.
  intros Hterm. apply turn_ends_with_reply. exact Hterm.
Qed.

Lemma non_terminal_turn_ends_with_reply_witness :
  exists logs eff,
    effects (transition (State.staging_files feature_git ["a.ts"])
               (Event.files_staged "1 file changed"))
    = (logs ++ [eff])%list
    /\ Forall (fun l => forall mode r, may_return mode l r -> r = None) logs
    /\ (forall mode r, may_return mode eff r -> exists ev, r = Some ev).
Proof.
  apply (non_terminal_turn_ends_with_reply
           (State.staging_files feature_git ["a.ts"])
           (Event.files_staged "1 file changed")).
  reflexivity.
Defined.

(** ** The run loop *)

Lemma execute_effects_given {W : Type} (execute : W -> Effect.t -> W * Outcome) :
  forall effs w event w' given res,
    execute_effects execute w effs event = (w', given, res) ->
    forall eff, In eff given -> In eff effs.
Proof.
  induction effs as [| x rest IH]; intros w event w' given res Hrun eff Hin;
    cbn [execute_effects] in Hrun.
  - injection Hrun as _ <- _. contradiction.
  - destruct (execute w x) as [w1 [result | message]].
    + destruct (execute_effects execute w1 rest
                  match result with Some ev => Some ev | None => event end)
        as [[w2 given2] res2] eqn:Hrest.
      injection Hrun as _ <- _.
      destruct Hin as [<- | Hin]; [left; reflexivity | right].
      exact (IH _ _ _ _ _ Hrest eff Hin).
    + injection Hrun as _ <- _.
      destruct Hin as [<- | []]. left. reflexivity.
Qed.

Lemma run_loop_executed {W : Type} (execute : W -> Effect.t -> W * Outcome)
    (P : Effect.t -> Prop) :
  (forall s e eff,
      isTerminal (state (transition s e)) = false ->
      In eff (effects (transition s e)) -> P eff) ->
  forall fuel w s effs,
    (isTerminal s = false -> forall eff, In eff effs -> P eff) ->
    forall eff, In eff (executed (run_loop execute fuel w s effs)) -> P eff.
Proof.
  intros Hturn.
  induction fuel as [| fuel IH]; intros w s effs Hpending eff Hin;
    cbn [run_loop] in Hin.
  - contradiction.
  - destruct (isTerminal s) eqn:Hterm; [contradiction |].
    destruct (execute_effects execute w effs None) as [[w' given] res] eqn:Hexec.
    assert (Hgiven : forall x, In x given -> P x).
    { intros x Hx. apply (Hpending eq_refl).
      exact (execute_effects_given execute _ _ _ _ _ _ Hexec x Hx). }
    destruct res as [[event |] | message]; cbn [executed] in Hin; auto.
    apply in_app_or in Hin. destruct Hin as [Hin | Hin]; [auto |].
    apply (IH w' (state (transition s event)) (effects (transition s event)));
      [| exact Hin].
    intros Hnext x Hx. exact (Hturn s event x Hnext Hx).
Qed.

Lemma cleanup_effects_end_the_run (s : State.t) (e : Event.t) (eff : Effect.t) :
  In eff (effects (transition s e)) ->
  match eff with
  | Effect.unstage_all | Effect.log_pr_skip _ | Effect.log_merge_skip _ _ _ => True
  | _ => False
  end ->
  isTerminal (state (transition s e)) = true.
Proof.
  transition_cases s e; intros H; in_effects H; subst eff; intros Hkind;
    try contradiction; reflexivity.
Qed.

(** X8: the loop stops as soon as the state is terminal, before the effects
    returned with that state are given to the executor.  So whatever the
    executor does and however long the run is, [unstage_all], [log_pr_skip]
    and [log_merge_skip], which [transition] emits only together with
    [cancelled] or [done], are never executed. *)
Theorem effects_of_last_turn_never_executed {W : Type}
    (execute : W -> Effect.t -> W * Outcome) (fuel : nat) (w : W) :
  ~ In Effect.unstage_all (executed (ship execute fuel w))
  /\ (forall branchName,
         ~ In (Effect.log_pr_skip branchName) (executed (ship execute fuel w)))
  /\ (forall prUrl branchName onMain,
         ~ In (Effect.log_merge_skip prUrl branchName onMain)
              (executed (ship execute fuel w))).
Proof.
  assert (Hall : forall eff,
             In eff (executed (ship execute fuel w)) ->
             match eff with
             | Effect.unstage_all | Effect.log_pr_skip _
             | Effect.log_merge_skip _ _ _ => False
             | _ => True
             end).
  { unfold ship. apply run_loop_executed.
    - intros s e eff Hterm Hin.
      pose proof (cleanup_effects_end_the_run s e eff Hin) as Hend.
      destruct eff; try exact I; rewrite Hend in Hterm by exact I;
        discriminate Hterm.
    - intros _ eff [<- | []]. exact I. }
  repeat split; intros; intros Hin; exact (Hall _ Hin).
Qed.

(** A run that is cancelled at the branch prompt: the loop ends in
    [cancelled] and the executor was never given the [unstage_all] of that
    turn. *)
Example cancelled_run_leaves_files_staged :
  ship scripted 10
    [returned (Some (Event.tools_ok main_git));
     returned (Some (Event.files_collected [FileEntry.mk "a.ts" FileEntry.modified]));
     returned (Some (Event.files_picked ["a.ts"]));
     returned (Some (Event.files_staged "1 file changed"));
     returned None;
     returned (Some (Event.diff_ready "diff content"));
     returned (Some (Event.details_generated sample_details));
     returned (Some Event.user_cancelled)]
  = mkLoopResult (State.cancelled "Cancelled.")
      [Effect.check_tools;
       Effect.collect_files main_git;
       Effect.prompt_file_picker [FileEntry.mk "a.ts" FileEntry.modified];
       Effect.stage_files ["a.ts"];
       Effect.log_info "1 file changed";
       Effect.get_staged_diff;
       Effect.generate_commit_details "diff content";
       Effect.prompt_branch_name "feat-foo"]
      true.
Proof. reflexivity. Qed.

(** ** The command line *)

Lemma includes_In (args : list string) (flag : string) :
  includes args flag = true <-> In flag args.
Proof.
  unfold includes. rewrite existsb_exists. split.
  - intros (x & Hin & Heq). apply String.eqb_eq in Heq. subst x. exact Hin.
  - intros Hin. exists flag. split; [exact Hin | apply String.eqb_refl].
Qed.

Lemma includes_false (args : list string) (flag : string) :
  includes args flag = false <-> ~ In flag args.
Proof.
  rewrite <- includes_In. destruct (includes args flag); split; intros H;
    try reflexivity; try discriminate H; try (intros H'; discriminate H').
  exfalso. apply H. reflexivity.
Qed.

(** X9: [parseArgs] leaves the process with status 1 exactly when two of
    the goal flags [--local], [--push], [--pr] are given together, or
    [--stack] is given with neither [--push] nor [--pr]; the first two
    command-line words are not looked at. *)
Theorem parseArgs_rejects (argv : list string) :
  (exists message, parseArgs argv = exit_1 message) <->
  (In "--local" (skipn 2 argv) /\ In "--push" (skipn 2 argv))
  \/ (In "--local" (skipn 2 argv) /\ In "--pr" (skipn 2 argv))
  \/ (In "--push" (skipn 2 argv) /\ In "--pr" (skipn 2 argv))
  \/ (In "--stack" (skipn 2 argv)
      /\ ~ In "--push" (skipn 2 argv) /\ ~ In "--pr" (skipn 2 argv)).
Proof.
  unfold parseArgs.
  generalize (skipn 2 argv) as args. intros args.
  pose proof (includes_In args "--local") as Hl.
  pose proof (includes_In args "--push") as Hp.
  pose proof (includes_In args "--pr") as Hr.
  pose proof (includes_In args "--stack") as Hs.
  assert (Hf : false = true -> False) by discriminate.
  destruct (includes args "--local"), (includes args "--push"),
    (includes args "--pr"), (includes args "--stack");
    cbn [goalCount filter length Nat.ltb Nat.leb andb negb];
    try (split; [intros _; tauto | intros _; eexists; reflexivity]).
  all: destruct (first_is (filter (fun a => negb (startsWith_dashes a)) args) "setup");
    (split; [intros [message Hm]; discriminate Hm | intros H; exfalso; tauto]).
Qed.

(** X10: when [parseArgs] returns an autonomous mode, the flag of its goal
    is among the arguments, the flags of the two other goals are not, and
    the mode stacks exactly when [--stack] is among the arguments. *)
Theorem parseArgs_auto (argv : list string) (goal : Goal) (stack : bool) :
  parseArgs argv = parsed (mode_auto goal stack) ->
  In (goal_flag goal) (skipn 2 argv)
  /\ (forall other, other <> goal -> ~ In (goal_flag other) (skipn 2 argv))
  /\ (stack = true <-> In "--stack" (skipn 2 argv)).
Proof.
  unfold parseArgs.
  generalize (skipn 2 argv) as args. intros args.
  pose proof (includes_In args "--local") as Hl.
  pose proof (includes_In args "--push") as Hp.
  pose proof (includes_In args "--pr") as Hr.
  pose proof (includes_In args "--stack") as Hs.
  assert (Hf : false = true -> False) by discriminate.
  destruct (includes args "--local"), (includes args "--push"),
    (includes args "--pr"), (includes args "--stack");
    cbn [goalCount filter length Nat.ltb Nat.leb andb negb];
    try (intros H; discriminate H);
    destruct (first_is (filter (fun a => negb (startsWith_dashes a)) args) "setup");
    intros H; try discriminate H;
    injection H as <- <-;
    (split; [cbn [goal_flag]; tauto |]);
    (split;
     [ intros other Hother; destruct other; cbn [goal_flag];
       try congruence; tauto
     | tauto ]).
Qed.

Lemma parseArgs_auto_witness :
  In (goal_flag goal_pr) (skipn 2 ["bun"; "ship"; "--stack"; "--pr"])
  /\ (forall other,
         other <> goal_pr ->
         ~ In (goal_flag other) (skipn 2 ["bun"; "ship"; "--stack"; "--pr"]))
  /\ (true = true <-> In "--stack" (skipn 2 ["bun"; "ship"; "--stack"; "--pr"])).
Proof.
  apply (parseArgs_auto ["bun"; "ship"; "--stack"; "--pr"] goal_pr true).
  reflexivity.
Defined.

(** X11: the result of [parseArgs] depends only on which of the four flags
    occur after the first two words and on the first argument that does not
    start with two dashes: order, repetitions and other flags do not count. *)
Theorem parseArgs_flags_and_first_word (argv1 argv2 : list string) :
  (forall flag,
      In flag ["--local"; "--push"; "--pr"; "--stack"] ->
      (In flag (skipn 2 argv1) <-> In flag (skipn 2 argv2))) ->
  hd_error (filter (fun a => negb (startsWith_dashes a)) (skipn 2 argv1))
  = hd_error (filter (fun a => negb (startsWith_dashes a)) (skipn 2 argv2)) ->
  parseArgs argv1 = parseArgs argv2.
Proof.
  intros Hflags Hfirst. unfold parseArgs.
  assert (Hinc : forall flag,
             In flag ["--local"; "--push"; "--pr"; "--stack"] ->
             includes (skipn 2 argv1) flag = includes (skipn 2 argv2) flag).
  { intros flag Hin. specialize (Hflags flag Hin).
    rewrite <- !includes_In in Hflags.
    destruct (includes (skipn 2 argv1) flag), (includes (skipn 2 argv2) flag);
      try reflexivity; destruct Hflags as [H1 H2];
      [discriminate (H1 eq_refl) | discriminate (H2 eq_refl)]. }
  unfold first_is.
  rewrite (Hinc "--local"), (Hinc "--push"), (Hinc "--pr"), (Hinc "--stack"), Hfirst
    by (cbn [In]; tauto).
  reflexivity.
Qed.

Lemma parseArgs_flags_and_first_word_witness :
  parseArgs ["bun"; "ship"; "--pr"; "--verbose"; "--stack"; "--pr"]
  = parseArgs ["bun"; "ship"; "--stack"; "--pr"].
Proof.
  apply parseArgs_flags_and_first_word.
  - intros flag Hin. cbn [In] in Hin.
    repeat (destruct Hin as [<- | Hin];
            [cbn [skipn In]; split; intros H;
             repeat (destruct H as [H | H]);
             try discriminate H; try contradiction; auto 10 |]).
    contradiction.
  - reflexivity.
Defined.

(** ** The tool check *)

(** X12: the context that the tool check reports is coherent: [hasChanges]
    is the disjunction of the three change flags, [onMain] says that the
    branch is named main, [hasUntracked] says that the untracked listing is
    not empty; on the trunk there is no upstream and both commit counts are
    0; and without an upstream the unpushed count is the unmerged count. *)
Theorem tools_ok_context_coherent (w : World.t) (git : GitContext.t) :
  execute_check_tools w = Event.tools_ok git ->
  GitContext.hasChanges git
  = GitContext.hasStaged git || GitContext.hasUnstaged git || GitContext.hasUntracked git
  /\ (GitContext.onMain git = true <-> GitContext.currentBranch git = "main")
  /\ (GitContext.hasUntracked git = true <-> GitContext.untrackedRaw git <> EmptyString)
  /\ (GitContext.onMain git = true ->
      GitContext.hasUpstream git = false
      /\ GitContext.unpushedCount git = 0
      /\ GitContext.unmergedCount git = 0)
  /\ (GitContext.hasUpstream git = false ->
      GitContext.unpushedCount git = GitContext.unmergedCount git).
Proof.
  unfold execute_check_tools.
  destruct (negb (World.which_gh w)); [intros H; discriminate H |].
  intros H. injection H as <-. cbn.
  split; [reflexivity |].
  split; [apply String.eqb_eq |].
  split.
  { destruct (World.ls_files_others w); cbn; split; intros H;
      try discriminate H; try reflexivity; try discriminate.
    exfalso. apply H. reflexivity. }
  destruct (World.branch_show_current w =? "main")%string; cbn.
  - split; [intros _; repeat split | intros _; reflexivity].
  - split; [intros H; discriminate H |].
    intros Hup. rewrite Hup. reflexivity.
Qed.

Lemma tools_ok_context_coherent_witness :
  GitContext.onMain main_git = true <-> GitContext.currentBranch main_git = "main".
Proof.
  apply (tools_ok_context_coherent
           (World.mk true "main" true false EmptyString false 0 0) main_git).
  reflexivity.
Defined.

(** X13: on the branch named main the tool check leads [preflight] to
    [collecting_files] when something is changed and to [nothing_to_ship]
    when nothing is: neither the pull check nor the fast path is entered
    there, whatever commits the branch holds. *)
Theorem preflight_on_main (w : World.t) :
  World.which_gh w = true ->
  World.branch_show_current w = "main" ->
  exists git,
    execute_check_tools w = Event.tools_ok git
    /\ GitContext.onMain git = true
    /\ transition State.preflight (execute_check_tools w)
       = if GitContext.hasChanges git
         then mkTransition (State.collecting_files git) [Effect.collect_files git]
         else mkTransition State.nothing_to_ship [].
Proof.
  intros Hgh Hbranch. unfold execute_check_tools.
  rewrite Hgh, Hbranch. cbn [negb String.eqb]. eexists.
  split; [reflexivity |]. split; [reflexivity |].
  cbn [transition]. unfold continueAfterPullCheck. cbn.
  destruct (negb (World.diff_cached_quiet w) || negb (World.diff_quiet w)
            || nonempty_string (World.ls_files_others w)); reflexivity.
Qed.

Lemma preflight_on_main_witness :
  exists git,
    execute_check_tools (World.mk true "main" true true EmptyString true 4 4)
    = Event.tools_ok git
    /\ GitContext.onMain git = true
    /\ transition State.preflight
         (execute_check_tools (World.mk true "main" true true EmptyString true 4 4))
       = if GitContext.hasChanges git
         then mkTransition (State.collecting_files git) [Effect.collect_files git]
         else mkTransition State.nothing_to_ship [].
Proof.
  apply (preflight_on_main (World.mk true "main" true true EmptyString true 4 4));
    reflexivity.
Defined.

(** ** Autonomous mode *)

(** X14: in autonomous mode a PR is never merged: whenever a turn emits
    [prompt_confirm_merge], the only answer of the executor leads the state
    entered by that turn to [done] with the message [PR open: <url>], and no
    [merge_and_cleanup] effect is emitted. *)
Theorem auto_mode_never_merges
    (goal : Goal) (stack : bool) (s : State.t) (e : Event.t)
    (prUrl : string) (ev : Event.t) :
  In (Effect.prompt_confirm_merge prUrl) (effects (transition s e)) ->
  may_return (mode_auto goal stack) (Effect.prompt_confirm_merge prUrl) (Some ev) ->
  state (transition (state (transition s e)) ev) = State.done ("PR open: " ++ prUrl)
  /\ forall url onMain,
       ~ In (Effect.merge_and_cleanup url onMain)
            (effects (transition (state (transition s e)) ev)).
Proof.
  intros Hin Hret. cbn [may_return isAuto] in Hret. injection Hret as ->.
  revert Hin.
  transition_cases s e; intros H; in_effects H; injection H as <-;
    (split; [reflexivity |]);
    intros url onMain Hm; in_effects Hm.
Qed.

Lemma auto_mode_never_merges_witness :
  state (transition
           (state (transition
                     (State.creating_pr feature_git sample_details "feat-thing")
                     (Event.pr_created "https://pr/1")))
           (Event.confirm_merge false))
  = State.done ("PR open: " ++ "https://pr/1").
Proof.
  apply (auto_mode_never_merges goal_pr false
           (State.creating_pr feature_git sample_details "feat-thing")
           (Event.pr_created "https://pr/1") "https://pr/1"
           (Event.confirm_merge false)).
  - right. left. reflexivity.
  - reflexivity.
Defined.

(** ** Committing more *)

Lemma in_round_step (cb : string) (s : State.t) (e : Event.t) :
  in_round_on cb s ->
  in_round_on cb (state (transition s e))
  /\ forall eff b,
       In eff (effects (transition s e)) -> named_branch eff = Some b -> b = cb.
Proof.
  destruct s; cbn [in_round_on]; intros Hin; try contradiction;
    try (destruct Hin as (Hcb & Hmain & Hb)); try (destruct Hin as (Hcb & Hmain));
    subst; destruct e; cbn [transition];
    unfold continueAfterPullCheck, startStackCommitting, invalid;
    try rewrite Hmain;
    repeat match goal with
           | |- context [if negb ?b then _ else _] => is_var b; destruct b; cbn [negb]
           | |- context [if ?b then _ else _] => is_var b; destruct b
           | |- context [if ?c then _ else _] => destruct c eqn:?
           end;
    try (match goal with
         | a : CommitAction |- _ => destruct a
         | c : PostCommitChoice |- _ => destruct c
         | p : PostPush |- _ => destruct p
         end);
    (split;
     [ cbn; auto
     | intros eff b H Hb; in_effects H; subst eff; cbn in Hb;
       try discriminate Hb; injection Hb as <-; reflexivity ]).
Qed.

Lemma in_round_run (cb : string) (events : list Event.t) :
  forall s t eff b,
    in_round_on cb s ->
    In t (run s events) ->
    In eff (effects t) -> named_branch eff = Some b -> b = cb.
Proof.
  induction events as [| e rest IH]; intros s t eff b Hs Hin Heff Hb;
    cbn [run] in Hin.
  - contradiction.
  - destruct (isTerminal s); [contradiction |].
    destruct (in_round_step cb s e Hs) as [Hnext Hturn].
    destruct Hin as [<- | Hin].
    + exact (Hturn eff b Heff Hb).
    + exact (IH _ t eff b Hnext Hin Heff Hb).
Qed.

(** X15: the branch name held by [post_commit] is not kept for a further
    round: once [commit_more] is chosen, with the context off the trunk as it
    is after a commit, every commit, PR check, push and PR creation of the
    rest of the run names the [currentBranch] of the context, whatever branch
    name the round before had confirmed. *)
Theorem commit_more_uses_current_branch
    (git : GitContext.t) (details : CommitDetails.t) (branchName : string)
    (prUrl : option string) (events : list Event.t)
    (t : Transition) (eff : Effect.t) (b : string) :
  GitContext.onMain git = false ->
  In t (run (State.post_commit git details branchName prUrl)
          (Event.post_commit_choice choice_commit_more :: events)) ->
  In eff (effects t) ->
  named_branch eff = Some b ->
  b = GitContext.currentBranch git.
Proof.
  intros Hmain Hin Heff Hb.
  rewrite run_cons in Hin by reflexivity. cbn [transition state] in Hin.
  destruct Hin as [<- | Hin].
  - in_effects Heff. subst eff. discriminate Hb.
  - apply (in_round_run (GitContext.currentBranch git) events
             (State.collecting_files git) t eff b); auto.
    split; [reflexivity | exact Hmain].
Qed.

Lemma commit_more_uses_current_branch_witness :
  "main" = GitContext.currentBranch (GitContext.with_onMain main_git false).
Proof.
  apply (commit_more_uses_current_branch
           (GitContext.with_onMain main_git false) sample_details "feat-foo" None
           [Event.files_collected []; Event.files_picked ["a.ts"];
            Event.files_staged "1 file changed"; Event.diff_ready "diff content";
            Event.details_generated sample_details; Event.commit_action act_accept]
           (mkTransition
              (State.committing (GitContext.with_onMain main_git false)
                 sample_details "main" "feat: add foo")
              [Effect.commit_only "main" "feat: add foo" false])
           (Effect.commit_only "main" "feat: add foo" false) "main").
  - reflexivity.
  - vm_compute. do 6 right. left. reflexivity.
  - left. reflexivity.
  - reflexivity.
Defined.

(** A first commit from the trunk under a confirmed branch name, then a
    second round: the second commit and the push name the trunk. *)
Example second_round_from_trunk
    (git : GitContext.t) (details details2 : CommitDetails.t) (branchName : string)
    (files : list FileEntry.t) (selected : list string) (shortStat diff : string) :
  let turns :=
    run (State.confirming_branch git details)
      [Event.branch_confirmed branchName;
       Event.commit_action act_accept;
       Event.commit_done;
       Event.no_pr;
       Event.post_commit_choice choice_commit_more;
       Event.files_collected files;
       Event.files_picked selected;
       Event.files_staged shortStat;
       Event.diff_ready diff;
       Event.details_generated details2;
       Event.commit_action act_accept;
       Event.commit_done;
       Event.no_pr;
       Event.post_commit_choice choice_push_only] in
  map effects (firstn 1 (skipn 1 turns))
  = [[Effect.commit_only branchName (CommitDetails.commitMessage details)
        (GitContext.onMain git)]]
  /\ map effects (skipn 10 turns)
     = [[Effect.commit_only (GitContext.currentBranch git)
           (CommitDetails.commitMessage details2) false];
        [Effect.check_existing_pr (GitContext.currentBranch git)];
        [Effect.prompt_post_commit None];
        [Effect.push_branch (GitContext.currentBranch git)]].
Proof.
  split; reflexivity.
Qed.

(** ** Collecting the changed files *)

Lemma seen_has_In (seen : list string) (f : string) :
  seen_has seen f = true <-> In f seen.
Proof. exact (includes_In seen f). Qed.

Lemma nonempty_lines_nonempty (s p : string) :
  In p (nonempty_lines s) -> p <> EmptyString.
Proof.
  unfold nonempty_lines. rewrite filter_In. intros [_ Hne] ->. discriminate Hne.
Qed.

(** What one loop of [collect_files] does to the entries, when [seen] holds
    the paths entered so far. *)
Lemma add_files_spec (status : FileEntry.status_t) (paths : list string) :
  forall files seen,
    (forall p, In p seen <-> In p (map FileEntry.path files)) ->
    NoDup (map FileEntry.path files) ->
    (forall p, In p (snd (add_files status paths files seen)) <->
               In p (map FileEntry.path (fst (add_files status paths files seen))))
    /\ NoDup (map FileEntry.path (fst (add_files status paths files seen)))
    /\ (forall p, In p (map FileEntry.path (fst (add_files status paths files seen))) <->
                  In p (map FileEntry.path files) \/ In p paths)
    /\ (forall x, In x (fst (add_files status paths files seen)) <->
                  In x files
                  \/ (FileEntry.status x = status
                      /\ In (FileEntry.path x) paths
                      /\ ~ In (FileEntry.path x) (map FileEntry.path files))).
Proof.
  induction paths as [| f rest IH]; intros files seen Hseen Hnodup;
    cbn [add_files].
  - cbn [fst snd In]. split; [exact Hseen |]. split; [exact Hnodup |].
    split; intros; tauto.
  - destruct (seen_has seen f) eqn:Hhas.
    + apply seen_has_In in Hhas. apply Hseen in Hhas.
      destruct (IH files seen Hseen Hnodup) as (Hs & Hn & Hp & Hx).
      split; [exact Hs |]. split; [exact Hn |]. split.
      * intros p. rewrite Hp. cbn [In]. split; [tauto |].
        intros [H | [<- | H]]; tauto.
      * intros x. rewrite Hx. cbn [In]. split; [tauto |].
        intros [H | (Hst & [Heq | H] & Hnot)]; try tauto.
        subst f. contradiction.
    + assert (Hnew : ~ In f (map FileEntry.path files)).
      { intros H. apply Hseen in H. apply seen_has_In in H. congruence. }
      assert (Hmap : forall p,
                 In p (map FileEntry.path (files ++ [FileEntry.mk f status])%list)
                 <-> In p (map FileEntry.path files) \/ p = f).
      { intros p. rewrite map_app, in_app_iff. cbn. intuition congruence. }
      destruct (IH (files ++ [FileEntry.mk f status])%list (f :: seen))
        as (Hs & Hn & Hp & Hx).
      { intros p. rewrite Hmap. cbn [In]. rewrite Hseen. intuition congruence. }
      { rewrite map_app. cbn [map]. apply NoDup_app; [exact Hnodup | | ].
        - repeat constructor. intros [].
        - intros a Ha [<- | []]. contradiction. }
      split; [exact Hs |]. split; [exact Hn |]. split.
      * intros p. rewrite Hp, Hmap. cbn [In]. intuition congruence.
      * intros x. rewrite Hx, in_app_iff, Hmap. cbn [In]. split.
        -- intros [[H | [<- | []]] | (Hst & Hin & Hnot)].
           ++ tauto.
           ++ right. cbn. tauto.
           ++ right. tauto.
        -- intros [H | (Hst & [Heq | Hin] & Hnot)]; [tauto | |].
           ++ left. right. left. destruct x as [p st]. cbn in *. congruence.
           ++ destruct (String.eqb_spec (FileEntry.path x) f) as [Heq | Hneq].
              ** left. right. left. destruct x as [p st]. cbn in *. congruence.
              ** right. tauto.
Qed.

(** The same for a loop under its flag. *)
Lemma add_files_if_spec (flag : bool) (status : FileEntry.status_t)
    (paths : list string) (acc : list FileEntry.t * list string) :
  (forall p, In p (snd acc) <-> In p (map FileEntry.path (fst acc))) ->
  NoDup (map FileEntry.path (fst acc)) ->
  let acc' := if flag then add_files status paths (fst acc) (snd acc) else acc in
  (forall p, In p (snd acc') <-> In p (map FileEntry.path (fst acc')))
  /\ NoDup (map FileEntry.path (fst acc'))
  /\ (forall p, In p (map FileEntry.path (fst acc')) <->
                In p (map FileEntry.path (fst acc)) \/ (flag = true /\ In p paths))
  /\ (forall x, In x (fst acc') <->
                In x (fst acc)
                \/ (flag = true /\ FileEntry.status x = status
                    /\ In (FileEntry.path x) paths
                    /\ ~ In (FileEntry.path x) (map FileEntry.path (fst acc)))).
Proof.
  intros Hseen Hnodup. destruct flag; cbn zeta.
  - destruct (add_files_spec status paths (fst acc) (snd acc) Hseen Hnodup)
      as (Hs & Hn & Hp & Hx).
    split; [exact Hs |]. split; [exact Hn |].
    split; [intros p; rewrite Hp; tauto | intros x; rewrite Hx; tauto].
  - split; [exact Hseen |]. split; [exact Hnodup |].
    split; intros y; (split; [tauto |]);
      intros [H | [H _]]; [exact H | discriminate H | exact H | discriminate H].
Qed.

Lemma collect_files_stages (git : GitContext.t) (cached_names diff_names : string) :
  NoDup (map FileEntry.path (collect_files git cached_names diff_names))
  /\ forall x,
       In x (collect_files git cached_names diff_names) <->
       (FileEntry.status x = FileEntry.staged
        /\ GitContext.hasStaged git = true
        /\ In (FileEntry.path x) (nonempty_lines cached_names))
       \/ (FileEntry.status x = FileEntry.modified
           /\ GitContext.hasUnstaged git = true
           /\ In (FileEntry.path x) (nonempty_lines diff_names)
           /\ ~ (GitContext.hasStaged git = true
                 /\ In (FileEntry.path x) (nonempty_lines cached_names)))
       \/ (FileEntry.status x = FileEntry.new
           /\ GitContext.hasUntracked git = true
           /\ In (FileEntry.path x) (nonempty_lines (GitContext.untrackedRaw git))
           /\ ~ (GitContext.hasStaged git = true
                 /\ In (FileEntry.path x) (nonempty_lines cached_names))
           /\ ~ (GitContext.hasUnstaged git = true
                 /\ In (FileEntry.path x) (nonempty_lines diff_names))).
Proof.
  unfold collect_files.
  set (acc0 := ([], []) : list FileEntry.t * list string).
  assert (Hs0 : forall p, In p (snd acc0) <-> In p (map FileEntry.path (fst acc0)))
    by (intros p; cbn; tauto).
  assert (Hn0 : NoDup (map FileEntry.path (fst acc0))) by constructor.
  destruct (add_files_if_spec (GitContext.hasStaged git) FileEntry.staged
              (nonempty_lines cached_names) acc0 Hs0 Hn0)
    as (Hs1 & Hn1 & Hp1 & Hx1).
  set (acc1 := if GitContext.hasStaged git
               then add_files FileEntry.staged (nonempty_lines cached_names)
                      (fst acc0) (snd acc0)
               else acc0) in *.
  destruct (add_files_if_spec (GitContext.hasUnstaged git) FileEntry.modified
              (nonempty_lines diff_names) acc1 Hs1 Hn1)
    as (Hs2 & Hn2 & Hp2 & Hx2).
  set (acc2 := if GitContext.hasUnstaged git
               then add_files FileEntry.modified (nonempty_lines diff_names)
                      (fst acc1) (snd acc1)
               else acc1) in *.
  destruct (add_files_if_spec (GitContext.hasUntracked git) FileEntry.new
              (nonempty_lines (GitContext.untrackedRaw git)) acc2 Hs2 Hn2)
    as (Hs3 & Hn3 & Hp3 & Hx3).
  set (acc3 := if GitContext.hasUntracked git
               then add_files FileEntry.new
                      (nonempty_lines (GitContext.untrackedRaw git))
                      (fst acc2) (snd acc2)
               else acc2) in *.
  split; [exact Hn3 |].
  intros x. rewrite Hx3, Hx2, Hx1, Hp2, Hp1.
  change (fst acc0) with (@nil FileEntry.t). cbn [map In].
  tauto.
Qed.

(** X16: the files reported by [collect_files] list every path once, and no
    path is empty: a file that is both staged and modified, or listed twice
    by git, gets one entry. *)
Theorem collect_files_no_duplicates
    (git : GitContext.t) (cached_names diff_names : string) :
  NoDup (map FileEntry.path (collect_files git cached_names diff_names))
  /\ Forall (fun x => FileEntry.path x <> EmptyString)
       (collect_files git cached_names diff_names).
Proof.
  destruct (collect_files_stages git cached_names diff_names) as [Hnodup Hin].
  split; [exact Hnodup |].
  apply Forall_forall. intros x Hx. apply Hin in Hx.
  destruct Hx as [(_ & _ & H) | [(_ & _ & H & _) | (_ & _ & H & _)]];
    exact (nonempty_lines_nonempty _ _ H).
Qed.

(** X17: an entry of [collect_files] is a non-empty line of one of the three
    listings whose flag is set in the context, with the status of the first
    such listing in the order staged, modified, new: a staged file is never
    reported as modified or new, and every listed path is reported. *)
Theorem collect_files_entries
    (git : GitContext.t) (cached_names diff_names : string) (x : FileEntry.t) :
  In x (collect_files git cached_names diff_names) <->
  (FileEntry.status x = FileEntry.staged
   /\ GitContext.hasStaged git = true
   /\ In (FileEntry.path x) (nonempty_lines cached_names))
  \/ (FileEntry.status x = FileEntry.modified
      /\ GitContext.hasUnstaged git = true
      /\ In (FileEntry.path x) (nonempty_lines diff_names)
      /\ ~ (GitContext.hasStaged git = true
            /\ In (FileEntry.path x) (nonempty_lines cached_names)))
  \/ (FileEntry.status x = FileEntry.new
      /\ GitContext.hasUntracked git = true
      /\ In (FileEntry.path x) (nonempty_lines (GitContext.untrackedRaw git))
      /\ ~ (GitContext.hasStaged git = true
            /\ In (FileEntry.path x) (nonempty_lines cached_names))
      /\ ~ (GitContext.hasUnstaged git = true
            /\ In (FileEntry.path x) (nonempty_lines diff_names))).
Proof.
  exact (proj2 (collect_files_stages git cached_names diff_names) x).
Qed.

Example collect_files_sample :
  collect_files
    (GitContext.mk "feat-x" false true true true true false 0 0
       ("c.ts" ++ newline ++ "a.ts"))
    ("a.ts" ++ newline ++ "b.ts" ++ newline)
    ("b.ts" ++ newline ++ newline ++ "d.ts")
  = [FileEntry.mk "a.ts" FileEntry.staged; FileEntry.mk "b.ts" FileEntry.staged;
     FileEntry.mk "d.ts" FileEntry.modified; FileEntry.mk "c.ts" FileEntry.new].
Proof. reflexivity. Qed.

(** ** The branch name typed at the prompt *)

Lemma branch_char_fixed (c : ascii) :
  branch_char c = true -> lower_ascii c = c /\ is_space c = false.
Proof.
  destruct c as [[] [] [] [] [] [] [] []]; vm_compute; intros H;
    try discriminate H; split; reflexivity.
Qed.

Lemma keep_branch_chars_all (s : string) :
  all_chars branch_char (keep_branch_chars s) = true.
Proof.
  induction s as [| c rest IH]; cbn [keep_branch_chars]; [reflexivity |].
  destruct (branch_char c) eqn:Hc; [| exact IH].
  cbn [all_chars]. rewrite Hc, IH. reflexivity.
Qed.

Lemma clean_name_fixed (s : string) :
  all_chars branch_char s = true ->
  toLowerCase s = s
  /\ (forall in_run, dash_spaces in_run s = s)
  /\ keep_branch_chars s = s.
Proof.
  induction s as [| c rest IH]; cbn [all_chars]; intros Hall.
  - repeat split.
  - apply andb_prop in Hall. destruct Hall as [Hc Hrest].
    destruct (IH Hrest) as (Hlow & Hdash & Hkeep).
    destruct (branch_char_fixed c Hc) as [Hl Hs].
    cbn [toLowerCase dash_spaces keep_branch_chars].
    rewrite Hl, Hs, Hc, Hlow, Hkeep, (Hdash false). repeat split.
Qed.

(** X18: the branch name that [prompt_branch_name] returns after its
    clean-up (for ASCII text) holds only the characters [a-z], [0-9], [.],
    [_], [/] and [-], and the clean-up leaves such a name as it is: cleaning
    twice is cleaning once. *)
Theorem clean_branch_name_stable (input suggestion : string) :
  is_ascii_string input = true ->
  is_ascii_string suggestion = true ->
  all_chars branch_char (clean_branch_name input suggestion) = true
  /\ clean_branch_name (clean_branch_name input suggestion)
       (clean_branch_name input suggestion)
     = clean_branch_name input suggestion.
Proof.
  intros _ _.
  assert (Hall : all_chars branch_char (clean_branch_name input suggestion) = true).
  { unfold clean_branch_name. apply keep_branch_chars_all. }
  split; [exact Hall |].
  destruct (clean_name_fixed _ Hall) as (Hlow & Hdash & Hkeep).
  unfold clean_branch_name at 1.
  destruct (nonempty_string (clean_branch_name input suggestion));
    rewrite Hlow, Hdash, Hkeep; reflexivity.
Qed.

Lemma clean_branch_name_stable_witness :
  all_chars branch_char (clean_branch_name "Feat  Add/Login Page!" "feat-foo") = true
  /\ clean_branch_name "Feat  Add/Login Page!" "feat-foo" = "feat-add/login-page".
Proof.
  split; [| reflexivity].
  apply (clean_branch_name_stable "Feat  Add/Login Page!" "feat-foo"); reflexivity.
Defined.

(** ** Where a run can end in error *)

(** X19: [cancelled] is entered only on [user_cancelled], on
    [details_failed], or on the cancel action at the commit prompt. *)
Theorem cancelled_only_on_cancel (s : State.t) (e : Event.t) :
  State.kind (state (transition s e)) = "cancelled" ->
  e = Event.user_cancelled \/ e = Event.details_failed
  \/ e = Event.commit_action act_cancel.
Proof.
  transition_cases s e; cbn; intros H; try discriminate H; tauto.
Qed.

Lemma cancelled_only_on_cancel_witness :
  Event.details_failed = Event.user_cancelled
  \/ Event.details_failed = Event.details_failed
  \/ Event.details_failed = Event.commit_action act_cancel.
Proof.
  apply (cancelled_only_on_cancel (State.generating_details feature_git "diff")
           Event.details_failed).
  reflexivity.
Defined.

(** X20: with commit counts that are not negative, [continueAfterPullCheck]
    chooses by the changes first: with changes it goes to [collecting_files];
    without changes it goes to [fast_path_logging] if a commit is unpushed or
    unmerged and to [nothing_to_ship] if none is. *)
Theorem continueAfterPullCheck_cases (git : GitContext.t) :
  0 <= GitContext.unpushedCount git ->
  0 <= GitContext.unmergedCount git ->
  continueAfterPullCheck git
  = if GitContext.hasChanges git
    then mkTransition (State.collecting_files git) [Effect.collect_files git]
    else if (GitContext.unpushedCount git + GitContext.unmergedCount git =? 0)
    then mkTransition State.nothing_to_ship []
    else mkTransition (State.fast_path_logging git) [Effect.show_commit_log git].
Proof.
  intros Hpush Hmerge. unfold continueAfterPullCheck.
  destruct (GitContext.hasChanges git); cbn [negb andb]; [reflexivity |].
  destruct (Z.eqb_spec (GitContext.unpushedCount git) 0) as [Hp | Hp];
    destruct (Z.eqb_spec (GitContext.unmergedCount git) 0) as [Hm | Hm];
    destruct (Z.eqb_spec (GitContext.unpushedCount git
                          + GitContext.unmergedCount git) 0) as [Hsum | Hsum];
    destruct (Z.ltb_spec 0 (GitContext.unpushedCount git)) as [Hp' | Hp'];
    destruct (Z.ltb_spec 0 (GitContext.unmergedCount git)) as [Hm' | Hm'];
    cbn [andb orb]; try reflexivity; lia.
Qed.

Lemma continueAfterPullCheck_cases_witness :
  continueAfterPullCheck
    (GitContext.mk "feat-x" false false false false false false 3 3 EmptyString)
  = mkTransition
      (State.fast_path_logging
         (GitContext.mk "feat-x" false false false false false false 3 3 EmptyString))
      [Effect.show_commit_log
         (GitContext.mk "feat-x" false false false false false false 3 3 EmptyString)].
Proof.
  apply (continueAfterPullCheck_cases
           (GitContext.mk "feat-x" false false false false false false 3 3
              EmptyString)); discriminate.
Defined.

(** With a negative count and no change the two first tests fail and the
    full path is entered with nothing to collect. *)
Example continueAfterPullCheck_negative_count :
  state (continueAfterPullCheck
           (GitContext.mk "feat-x" false false false false false false (-1) 0
              EmptyString))
  = State.collecting_files
      (GitContext.mk "feat-x" false false false false false false (-1) 0 EmptyString).
Proof. reflexivity. Qed.

Lemma answers_next (mode : CliMode) (s : State.t) (e : Event.t) :
  isTerminal (state (transition s e)) = false ->
  answers mode (state (transition s e)) (effects (transition s e)).
Proof.
  intros Hterm.
  destruct (turn_ends_with_reply s e Hterm)
    as (logs & eff & Heffs & Hlogs & Hreply).
  exists logs, eff. split; [exact Heffs |]. split.
  - apply Forall_forall. intros l Hl r Hr.
    rewrite Forall_forall in Hlogs. exact (Hlogs l Hl mode r Hr).
  - intros r Hr. destruct (Hreply mode r Hr) as [ev ->].
    exists ev. split; [reflexivity |].
    apply (turn_events_handled mode s e eff ev Hterm); [| exact Hr].
    rewrite Heffs. apply in_or_app. right. left. reflexivity.
Qed.

Lemma answers_initial (mode : CliMode) :
  answers mode State.preflight [Effect.check_tools].
Proof.
  exists [], Effect.check_tools. split; [reflexivity |]. split; [constructor |].
  intros r Hr. pose proof Hr as [w ->]. eexists. split; [reflexivity |].
  destruct (tool_check_events_handled mode _ Hr) as [H | H]; [left; exact H |].
  right. split; [exact H | reflexivity].
Qed.

Lemma execute_effects_answers {W : Type} (execute : W -> Effect.t -> W * Outcome)
    (mode : CliMode) (eff : Effect.t) :
  (forall w x w' r, execute w x = (w', returned r) -> may_return mode x r) ->
  forall logs w w' given res,
    Forall (fun l => forall r, may_return mode l r -> r = None) logs ->
    execute_effects execute w (logs ++ [eff])%list None = (w', given, res) ->
    (exists message,
        res = inr message /\ exists w1 x w2, execute w1 x = (w2, threw message))
    \/ (exists r, res = inl r /\ may_return mode eff r).
Proof.
  intros Hexec.
  induction logs as [| l logs IH]; intros w w' given res Hlogs Hrun;
    cbn [app execute_effects] in Hrun.
  - destruct (execute w eff) as [w1 [r | message]] eqn:Hcall.
    + injection Hrun as _ _ <-. right.
      exists (match r with Some ev => Some ev | None => None end).
      split; [reflexivity |].
      apply Hexec in Hcall. destruct r; exact Hcall.
    + injection Hrun as _ _ <-. left. exists message.
      split; [reflexivity | eauto].
  - destruct (execute w l) as [w1 [r | message]] eqn:Hcall.
    + inversion Hlogs as [| ? ? Hl Hrest]; subst.
      apply Hexec in Hcall. apply Hl in Hcall. subst r.
      destruct (execute_effects execute w1 (logs ++ [eff])%list None)
        as [[w2 given2] res2] eqn:Hrest'.
      injection Hrun as _ _ <-.
      exact (IH _ _ _ _ Hrest Hrest').
    + injection Hrun as _ _ <-. left. exists message.
      split; [reflexivity | eauto].
Qed.

Lemma run_loop_error {W : Type} (execute : W -> Effect.t -> W * Outcome)
    (mode : CliMode) :
  (forall w x w' r, execute w x = (w', returned r) -> may_return mode x r) ->
  forall fuel w s effs,
    (forall message, s = State.error message -> error_explained execute message) ->
    (isTerminal s = false -> answers mode s effs) ->
    forall message,
      final (run_loop execute fuel w s effs) = State.error message ->
      error_explained execute message.
Proof.
  intros Hexec.
  induction fuel as [| fuel IH]; intros w s effs Hs Hanswers message Hfinal;
    cbn [run_loop] in Hfinal.
  - exact (Hs message Hfinal).
  - destruct (isTerminal s) eqn:Hterm; [exact (Hs message Hfinal) |].
    destruct (Hanswers eq_refl) as (logs & eff & -> & Hlogs & Hreply).
    destruct (execute_effects execute w (logs ++ [eff])%list None)
      as [[w' given] res] eqn:Hrun.
    destruct (execute_effects_answers execute mode eff Hexec _ _ _ _ _ Hlogs Hrun)
      as [(thrown & -> & Hthrown) | (r & -> & Hr)].
    + cbn [final] in Hfinal. injection Hfinal as <-. left. exact Hthrown.
    + destruct (Hreply r Hr) as (ev & -> & Hev).
      cbn [final] in Hfinal.
      apply (IH w' (state (transition s ev)) (effects (transition s ev)));
        [| apply answers_next | exact Hfinal].
      intros m Hm. destruct Hev as [Hhandles | [-> Hdrops]].
      * exfalso. apply Hhandles. rewrite Hm. reflexivity.
      * right. exists s. split; [exact Hdrops |].
        rewrite <- Hm. apply f_equal.
        apply error_is_invalid. rewrite Hm. reflexivity.
Qed.

(** X21: with an executor that returns, for each effect, only what
    [execute] can return for it, a run that ends in [error] carries the
    message of an exception thrown by the executor, or the unexpected-event
    message for a [user_cancelled] returned to one of the six states that
    drop it; no other unexpected event and no stalled turn occurs. *)
Theorem ship_error_explained {W : Type} (execute : W -> Effect.t -> W * Outcome)
    (mode : CliMode) (fuel : nat) (w : W) (message : string) :
  (forall w x w' r, execute w x = (w', returned r) -> may_return mode x r) ->
  final (ship execute fuel w) = State.error message ->
  error_explained execute message.
Proof.
  intros Hexec Hfinal.
  apply (run_loop_error execute mode Hexec fuel w State.preflight
           [Effect.check_tools]); [| | exact Hfinal].
  - intros m Hm. discriminate Hm.
  - intros _. apply answers_initial.
Qed.

Lemma declining_executor_may_return (w : unit) (x : Effect.t) (w' : unit)
    (r : option Event.t) :
  declining_executor w x = (w', returned r) -> may_return mode_interactive x r.
Proof.
  unfold declining_executor. intros H.
  destruct x; injection H as _ <-; cbn [may_return isAuto isStack];
    try reflexivity; eauto 6.
Qed.

Lemma ship_error_explained_witness :
  error_explained declining_executor
    ("Unexpected event " ++ dquote ++ "user_cancelled" ++ dquote
     ++ " in state " ++ dquote ++ "preflight" ++ dquote).
Proof.
  apply (ship_error_explained declining_executor mode_interactive 3 tt).
  - exact declining_executor_may_return.
  - reflexivity.
Defined.
